(** * Honeypot agent: session and intelligence pipeline

    A shallow embedding of the Python services under [app/] (extractor,
    scam scorer, stage engine, session manager, callback policy and the
    [handle_message] endpoint) together with the properties the
    specification states about them.

    Conventions of the embedding.
    - Python [str] is [string], character by character, for text made of
      ASCII characters ([Text.ascii_text]). Python's [\d], [\w], [\s],
      [\b] and [str.lower] follow the Unicode database; the classes of
      [Text] are their restrictions to ASCII, so the model is the code on
      ASCII text and says nothing about text with other characters. A
      property that depends on what a class contains is stated for ASCII
      text.
    - Python [int] is [Z]; Python [float] is a binary64 [float].
    - A [dict] is a [gmap]; a [dict] whose iteration order matters (the
      keyword table) is an association list.
    - [list(set(l))] lists the distinct elements of [l] in an order Python
      does not specify: the order is a parameter, class [PySet].
    - [datetime] values are microseconds on the UTC clock, as [Z].
    - The collaborators (classifier, reply generator, report sink) and the
      clock are read from an environment record, one per request, and every
      collaborator call is recorded in a trace of events. *)

From Stdlib Require Import ZArith PrimFloat Ascii String.
From stdpp Require Import gmap strings list pretty.

Local Open Scope string_scope.
Local Open Scope Z_scope.
Local Open Scope list_scope.

(** ** Python sets turned into lists *)

(** [set_list l] is [list(set(l))]: the elements of [l], each once, in the
    order in which the interpreter happens to enumerate the set. *)
Class PySet := {
  set_list : list string → list string;
  set_list_NoDup : ∀ l, NoDup (set_list l);
  set_list_elem : ∀ l x, x ∈ set_list l ↔ x ∈ l;
}.

(** One possible enumeration: first occurrences, in insertion order. *)
#[export] Instance first_seen_order : PySet := {|
  set_list := remove_dups;
  set_list_NoDup := NoDup_remove_dups;
  set_list_elem := λ l x, elem_of_remove_dups l x;
|}.

(** A dict of string lists, as the extractor and the session memory use. *)
Abbreviation intel_dict := (gmap string (list string)).

(** [d.get(key, [])] *)
Definition get_list (d : intel_dict) (key : string) : list string :=
  default [] (d !! key).

(** The values of one category seen as a set. *)
Definition category_set (d : intel_dict) (key : string) : gset string :=
  list_to_set (get_list d key).

(** The empty intelligence over the categories [keys]: every category is
    the empty list (with [keys = ∅] this is the dict [{}]). *)
Definition empty_intelligence (keys : gset string) : intel_dict :=
  gset_to_gmap [] keys.


(** ** Text: character classes and a matcher for the extractor's patterns *)

Module Text.
Local Open Scope char_scope.

Definition code (c : ascii) : N := N_of_ascii c.

(** [lo-hi] inside a character class *)
Definition between (lo hi c : ascii) : bool :=
  (code lo <=? code c)%N && (code c <=? code hi)%N.

(** one of the characters listed in [chars] *)
Definition one_of (chars : string) (c : ascii) : bool :=
  existsb (Ascii.eqb c) (list_ascii_of_string chars).

(** The characters of ASCII, and the texts made of them. *)
Definition is_ascii (c : ascii) : bool := (code c <? 128)%N.

Definition ascii_text (s : string) : bool :=
  forallb is_ascii (list_ascii_of_string s).

Definition is_lower : ascii → bool := between "a" "z".
Definition is_upper : ascii → bool := between "A" "Z".
Definition is_alpha (c : ascii) : bool := is_lower c || is_upper c.
(** [\d] on an ASCII character. On a [str] Python's [\d] also matches the
    decimal digits of the other scripts, none of which is in ASCII. *)
Definition is_digit : ascii → bool := between "0" "9".
Definition is_alnum (c : ascii) : bool := is_alpha c || is_digit c.
(** [\w] on an ASCII character, and through it the word boundary [\b].
    Python's [\w] also matches the letters and digits outside ASCII. *)
Definition is_word (c : ascii) : bool := is_alnum c || Ascii.eqb c "_".
(** [\s]: tab, line feed, vertical tab, form feed, carriage return, the
    four separators 28-31 and the space *)
Definition is_space (c : ascii) : bool :=
  ((9 <=? code c)%N && (code c <=? 13)%N)
  || ((28 <=? code c)%N && (code c <=? 32)%N).

(** [str.lower] *)
Definition lower_char (c : ascii) : ascii :=
  if is_upper c then ascii_of_N (code c + 32) else c.

Fixpoint lower (s : string) : string :=
  match s with
  | EmptyString => EmptyString
  | String c s' => String (lower_char c) (lower s')
  end.

(** [needle in s] *)
Fixpoint contains (needle s : string) : bool :=
  String.prefix needle s ||
  match s with
  | EmptyString => false
  | String _ s' => contains needle s'
  end.

(** The patterns of the extractor are sequences of word boundaries and
    greedy repetitions of one character class. *)
Inductive atom :=
  | Bnd                                                  (* [\b] *)
  | Rep (cls : ascii → bool) (lo : nat) (hi : option nat). (* [cls{lo,hi}] *)

Definition pattern := list atom.

Definition chr (c : ascii) : atom := Rep (Ascii.eqb c) 1 (Some 1%nat).
Definition lit (s : string) : pattern := chr <$> list_ascii_of_string s.
Definition at_least (n : nat) (cls : ascii → bool) : atom := Rep cls n None.
Definition exactly (n : nat) (cls : ascii → bool) : atom := Rep cls n (Some n).
Definition optional (c : ascii) : atom := Rep (Ascii.eqb c) 0 (Some 1%nat).

(** A position is a word boundary when exactly one of the characters
    around it is a word character. *)
Definition at_boundary (prev : option ascii) (s : string) : bool :=
  let before := from_option is_word false prev in
  let after := match s with String c _ => is_word c | EmptyString => false end in
  xorb before after.

(** The repetition gives up its characters one at a time. *)
Definition stop_here (lo : nat) (k : option ascii → string → option nat)
    (prev : option ascii) (s : string) : option nat :=
  match lo with O => k prev s | S _ => None end.

(** [rep cls lo hi k prev s]: match [cls{lo,hi}] at the head of [s], the
    longest run first, then the rest of the pattern [k]; the result is
    the length of the whole match. *)
Fixpoint rep (cls : ascii → bool) (lo : nat) (hi : option nat)
    (k : option ascii → string → option nat)
    (prev : option ascii) (s : string) : option nat :=
  match s with
  | String a s' =>
      if cls a && negb (bool_decide (hi = Some O)) then
        match rep cls (pred lo) (pred <$> hi) k (Some a) s' with
        | Some n => Some (S n)
        | None => stop_here lo k prev s
        end
      else stop_here lo k prev s
  | EmptyString => stop_here lo k prev s
  end.

(** [match_here p prev s]: the length of the match of [p] that starts at
    the head of [s], where [prev] is the character before it. *)
Fixpoint match_here (p : pattern) : option ascii → string → option nat :=
  match p with
  | [] => λ _ _, Some O
  | Bnd :: p' => λ prev s,
      if at_boundary prev s then match_here p' prev s else None
  | Rep cls lo hi :: p' => rep cls lo hi (match_here p')
  end.

(** The scan of [re.findall]: [skip] characters of the last match are
    still to be passed over. *)
Fixpoint findall_from (p : pattern) (skip : nat) (prev : option ascii)
    (s : string) : list string :=
  match skip, s with
  | S k, String a s' => findall_from p k (Some a) s'
  | S _, EmptyString => []
  | O, _ =>
      match match_here p prev s with
      | Some n =>
          String.substring 0 n s ::
          match s with
          | String a s' => findall_from p (pred n) (Some a) s'
          | EmptyString => []
          end
      | None =>
          match s with
          | String a s' => findall_from p O (Some a) s'
          | EmptyString => []
          end
      end
  end.

(** [re.findall(p, s)] for a pattern without groups *)
Definition findall (p : pattern) (s : string) : list string :=
  findall_from p O None s.
End Text.

(** ** app/services/extractor.py *)

Module Extractor.
Import Text.
Local Open Scope char_scope.

(** [\b[a-zA-Z0-9.\-_]{2,}@[a-zA-Z]{2,}\b] *)
Definition UPI_REGEX : pattern :=
  [Bnd; at_least 2 (λ c, is_alnum c || one_of ".-_" c); chr "@";
   at_least 2 is_alpha; Bnd].
(** [https?://[^\s]+] *)
Definition URL_REGEX : pattern :=
  (lit "http" ++ [optional "s"] ++ lit "://"
     ++ [at_least 1 (λ c, negb (is_space c))])%list.
(** [\b[A-Z]{4}0[A-Z0-9]{6}\b] *)
Definition IFSC_REGEX : pattern :=
  [Bnd; exactly 4 is_upper; chr "0"; exactly 6 (λ c, is_upper c || is_digit c); Bnd].
(** [\b[6-9]\d{9}\b] *)
Definition PHONE_REGEX : pattern :=
  [Bnd; exactly 1 (between "6" "9"); exactly 9 is_digit; Bnd].
(** [\b\d{9,18}\b] *)
Definition BANK_ACCOUNT_REGEX : pattern :=
  [Bnd; Rep is_digit 9 (Some 18%nat); Bnd].
(** [\b[A-Za-z0-9._%+-]+@[A-Za-z0-9.-]+\.[A-Z|a-z]{2,}\b] *)
Definition EMAIL_REGEX : pattern :=
  [Bnd; at_least 1 (λ c, is_alnum c || one_of "._%+-" c); chr "@";
   at_least 1 (λ c, is_alnum c || one_of ".-" c); chr ".";
   at_least 2 (λ c, is_alpha c || Ascii.eqb c "|"); Bnd].

Local Open Scope string_scope.

(** The dict literal that [extract_entities] returns. *)
Definition entities (upi_ids urls ifsc_codes phone_numbers bank_accounts
    emails : list string) : intel_dict :=
  <["upi_ids" := upi_ids]> (<["urls" := urls]> (<["ifsc_codes" := ifsc_codes]>
  (<["phone_numbers" := phone_numbers]> (<["bank_accounts" := bank_accounts]>
  (<["emails" := emails]> ∅))))).

Section extractor.
Context `{PySet}.

(** [extract_entities] *)
Definition extract_entities (text : string) : intel_dict :=
  if bool_decide (text = "") then entities [] [] [] [] [] []
  else
    let upi_ids := set_list (findall UPI_REGEX text) in
    let urls := set_list (findall URL_REGEX text) in
    let ifsc_codes := set_list (findall IFSC_REGEX text) in
    let phone_numbers := set_list (findall PHONE_REGEX text) in
    let emails := set_list (findall EMAIL_REGEX text) in
    let potential_accounts := findall BANK_ACCOUNT_REGEX text in
    let bank_accounts := set_list (filter
      (λ acc, (9 ≤ String.length acc)%nat ∧ acc ∉ phone_numbers)
      potential_accounts) in
    entities upi_ids urls ifsc_codes phone_numbers bank_accounts emails.

(** [merge_intelligence] *)
Definition merge_intelligence (existing new : intel_dict) : intel_dict :=
  let all_keys : gset string := dom existing ∪ dom new in
  set_fold (λ key merged,
      let existing_values := get_list existing key in
      let new_values := get_list new key in
      <[key := set_list (existing_values ++ new_values)]> merged)
    ∅ all_keys.
End extractor.
End Extractor.

(** ** app/models/schemas.py and app/core/config.py *)

Record Message := {
  sender : string;
  text : string;
  timestamp : Z;
}.

(** [msg.text], for the places where [text] names a parameter *)
Definition message_text (msg : Message) : string := text msg.

Record HoneypotRequest := {
  request_sessionId : string;
  message : Message;
  conversationHistory : list Message;
}.

Record HoneypotResponse := {
  status : string;
  reply : string;
}.

Record ExtractedIntelligence := {
  bankAccounts : list string;
  upiIds : list string;
  phishingLinks : list string;
  phoneNumbers : list string;
  suspiciousKeywords : list string;
}.

(** [ExtractedIntelligence()] *)
Definition no_intelligence : ExtractedIntelligence :=
  {| bankAccounts := []; upiIds := []; phishingLinks := [];
     phoneNumbers := []; suspiciousKeywords := [] |}.

Record FinalResultPayload := {
  payload_sessionId : string;
  payload_scamDetected : bool;
  totalMessagesExchanged : Z;
  payload_extractedIntelligence : ExtractedIntelligence;
  payload_agentNotes : string;
}.

Record SessionData := {
  sessionId : string;
  history : list Message;             (* conversationHistory *)
  stage : string;
  memory : intel_dict;
  totalMessages : Z;
  scamDetected : bool;
  extractedIntelligence : ExtractedIntelligence;
  session_suspiciousKeywords : list string;
  agentNotes : string;
  createdAt : Z;
}.

Record Settings := {
  API_KEY : string;
  MAX_TURNS : Z;
  SESSION_TIMEOUT_MINUTES : Z;
}.

(** The configuration when the environment sets nothing. *)
Definition default_settings : Settings :=
  {| API_KEY := "honeypot-secret-key-2025-guvi-hackathon";
     MAX_TURNS := 10;
     SESSION_TIMEOUT_MINUTES := 30 |}.

(** Assignments to the fields of a session, [session.f = v]. *)
Definition set_history (v : list Message) (s : SessionData) : SessionData :=
  {| sessionId := sessionId s; history := v; stage := stage s;
     memory := memory s; totalMessages := totalMessages s;
     scamDetected := scamDetected s;
     extractedIntelligence := extractedIntelligence s;
     session_suspiciousKeywords := session_suspiciousKeywords s;
     agentNotes := agentNotes s; createdAt := createdAt s |}.
Definition set_stage (v : string) (s : SessionData) : SessionData :=
  {| sessionId := sessionId s; history := history s; stage := v;
     memory := memory s; totalMessages := totalMessages s;
     scamDetected := scamDetected s;
     extractedIntelligence := extractedIntelligence s;
     session_suspiciousKeywords := session_suspiciousKeywords s;
     agentNotes := agentNotes s; createdAt := createdAt s |}.
Definition set_memory (v : intel_dict) (s : SessionData) : SessionData :=
  {| sessionId := sessionId s; history := history s; stage := stage s;
     memory := v; totalMessages := totalMessages s;
     scamDetected := scamDetected s;
     extractedIntelligence := extractedIntelligence s;
     session_suspiciousKeywords := session_suspiciousKeywords s;
     agentNotes := agentNotes s; createdAt := createdAt s |}.
Definition set_totalMessages (v : Z) (s : SessionData) : SessionData :=
  {| sessionId := sessionId s; history := history s; stage := stage s;
     memory := memory s; totalMessages := v;
     scamDetected := scamDetected s;
     extractedIntelligence := extractedIntelligence s;
     session_suspiciousKeywords := session_suspiciousKeywords s;
     agentNotes := agentNotes s; createdAt := createdAt s |}.
Definition set_scamDetected (v : bool) (s : SessionData) : SessionData :=
  {| sessionId := sessionId s; history := history s; stage := stage s;
     memory := memory s; totalMessages := totalMessages s;
     scamDetected := v;
     extractedIntelligence := extractedIntelligence s;
     session_suspiciousKeywords := session_suspiciousKeywords s;
     agentNotes := agentNotes s; createdAt := createdAt s |}.
Definition set_extractedIntelligence (v : ExtractedIntelligence)
    (s : SessionData) : SessionData :=
  {| sessionId := sessionId s; history := history s; stage := stage s;
     memory := memory s; totalMessages := totalMessages s;
     scamDetected := scamDetected s;
     extractedIntelligence := v;
     session_suspiciousKeywords := session_suspiciousKeywords s;
     agentNotes := agentNotes s; createdAt := createdAt s |}.
Definition set_agentNotes (v : string) (s : SessionData) : SessionData :=
  {| sessionId := sessionId s; history := history s; stage := stage s;
     memory := memory s; totalMessages := totalMessages s;
     scamDetected := scamDetected s;
     extractedIntelligence := extractedIntelligence s;
     session_suspiciousKeywords := session_suspiciousKeywords s;
     agentNotes := v; createdAt := createdAt s |}.

Definition set_bankAccounts (v : list string) (i : ExtractedIntelligence) :=
  {| bankAccounts := v; upiIds := upiIds i; phishingLinks := phishingLinks i;
     phoneNumbers := phoneNumbers i; suspiciousKeywords := suspiciousKeywords i |}.
Definition set_upiIds (v : list string) (i : ExtractedIntelligence) :=
  {| bankAccounts := bankAccounts i; upiIds := v; phishingLinks := phishingLinks i;
     phoneNumbers := phoneNumbers i; suspiciousKeywords := suspiciousKeywords i |}.
Definition set_phishingLinks (v : list string) (i : ExtractedIntelligence) :=
  {| bankAccounts := bankAccounts i; upiIds := upiIds i; phishingLinks := v;
     phoneNumbers := phoneNumbers i; suspiciousKeywords := suspiciousKeywords i |}.
Definition set_phoneNumbers (v : list string) (i : ExtractedIntelligence) :=
  {| bankAccounts := bankAccounts i; upiIds := upiIds i;
     phishingLinks := phishingLinks i; phoneNumbers := v;
     suspiciousKeywords := suspiciousKeywords i |}.
Definition set_suspiciousKeywords (v : list string) (i : ExtractedIntelligence) :=
  {| bankAccounts := bankAccounts i; upiIds := upiIds i;
     phishingLinks := phishingLinks i; phoneNumbers := phoneNumbers i;
     suspiciousKeywords := v |}.

(** ** Collaborators, events and the monad of the services *)

(** What [llm_fraud_classification] returns. The label comes out of parsed
    JSON: [None] stands for a value that is not a string. *)
Record LlmResult := {
  label : option string;
  llm_confidence : float;
  reason : string;
}.

(** The arguments of [build_prompt]; the prompt text is a function of them. *)
Record Prompt := {
  prompt_current_message : string;
  prompt_history : list (string * string);
  prompt_stage : string;
  prompt_memory : intel_dict;
}.

(** The world outside, as one request sees it. *)
Record Env := {
  clock_lookup : Z;   (* [datetime.utcnow()] read by [get_session] *)
  clock_create : Z;   (* [datetime.utcnow()] read by [create_session] *)
  llm_fraud_classification : string → LlmResult;
  generate_agent_reply : Prompt → string;
  post_final_result : FinalResultPayload → bool;
}.

Inductive Event :=
  | Scored (text : string)                 (* [predict_scam] was entered *)
  | Classified (context : string)          (* the classifier was called *)
  | Generated (prompt : Prompt)            (* the reply generator was called *)
  | Delivered (payload : FinalResultPayload). (* the report was posted *)

(** The session table of the process and the events so far. *)
Record World := {
  sessions : gmap string SessionData;
  trace : list Event;
}.

Definition M (A : Type) : Type := World → A * World.

#[export] Instance M_ret : MRet M := λ A a w, (a, w).
#[export] Instance M_bind : MBind M := λ A B f m w,
  let '(a, w') := m w in f a w'.

Definition emit (e : Event) : M unit := λ w,
  (tt, {| sessions := sessions w; trace := trace w ++ [e] |}).
Definition get_sessions : M (gmap string SessionData) := λ w, (sessions w, w).
Definition put_sessions (t : gmap string SessionData) : M unit := λ w,
  (tt, {| sessions := t; trace := trace w |}).

Definition empty_world : World := {| sessions := ∅; trace := [] |}.

(** ** Floats *)

Fixpoint float_of_positive (p : positive) : float :=
  match p with
  | xH => 1%float
  | xO p' => (2 * float_of_positive p')%float
  | xI p' => (2 * float_of_positive p' + 1)%float
  end.

(** [float(z)], exact below 2^53 *)
Definition float_of_Z (z : Z) : float :=
  match z with
  | Z0 => 0%float
  | Zpos p => float_of_positive p
  | Zneg p => (- float_of_positive p)%float
  end.

(** [a / b] on two integers *)
Definition true_div (a b : Z) : float := (float_of_Z a / float_of_Z b)%float.

(** [min(a, b)]: the first argument unless the second is smaller *)
Definition py_min (a b : float) : float := if PrimFloat.ltb b a then b else a.

(** The literals [0.95] and [0.75] as binary64 values. *)
Definition f0_95 : float := 0x1.e666666666666p-1%float.
Definition f0_75 : float := 0x1.8p-1%float.

(** ** app/services/ai_service.py *)

Module AiService.
Definition SCAM_KEYWORDS : list (string * Z) :=
  [ ("otp", 5); ("one time password", 5); ("kyc", 4);
    ("verify your account", 4); ("verify immediately", 5);
    ("verification required", 4);
    ("urgent", 3); ("immediately", 3); ("account blocked", 5);
    ("account suspended", 5); ("account will be blocked", 5);
    ("limited time", 3); ("expires today", 4); ("last chance", 4);
    ("bank officer", 4); ("customer care", 3); ("government official", 4);
    ("tax department", 4); ("police", 4);
    ("refund", 3); ("cashback", 2); ("prize", 3); ("lottery", 4);
    ("won", 2); ("claim", 2);
    ("click the link", 5); ("install app", 5); ("anydesk", 5);
    ("teamviewer", 5); ("remote access", 5); ("screen share", 4);
    ("download", 3);
    ("upi", 3); ("bank account", 2); ("credit card", 2); ("debit card", 2);
    ("cvv", 5); ("pin", 4); ("password", 4); ("net banking", 3) ].

Record Heuristic := {
  score : Z;
  matched_keywords : list string;
}.

(** [heuristic_scam_score] *)
Definition heuristic_scam_score (text : string) : Heuristic :=
  let lower_text := Text.lower text in
  foldl (λ acc '(keyword, weight),
      if Text.contains keyword lower_text
      then {| score := score acc + weight;
              matched_keywords := matched_keywords acc ++ [keyword] |}
      else acc)
    {| score := 0; matched_keywords := [] |} SCAM_KEYWORDS.

(** The [details] entry of a detection result. *)
Inductive Details :=
  | NoDetails                                        (* [{}] *)
  | HeuristicDetails (heuristic : Heuristic)
  | LlmDetails (llm_result : LlmResult) (heuristic : Heuristic).

Record Detection := {
  is_scam : bool;
  confidence : float;
  method : string;
  details : Details;
}.

(** [l[-n:]] *)
Definition last_n {A} (n : nat) (l : list A) : list A :=
  drop (length l - n)%nat l.

Definition newline : string := String (ascii_of_N 10) EmptyString.

(** [sep.join(l)] *)
Fixpoint join (sep : string) (l : list string) : string :=
  match l with
  | [] => ""
  | [x] => x
  | x :: l' => x +:+ sep +:+ join sep l'
  end.

(** [predict_scam] *)
Definition predict_scam (env : Env) (text : string)
    (conversation_history : list Message) : M Detection :=
  emit (Scored text);;
  let full_context :=
    match conversation_history with
    | [] => text
    | _ =>
        let history_text := join newline
          ((λ msg, sender msg +:+ ": " +:+ message_text msg)
             <$> last_n 5 conversation_history) in
        history_text +:+ newline +:+ "Current: " +:+ text
    end in
  let heuristic := heuristic_scam_score text in
  if bool_decide (6 ≤ score heuristic) then
    mret {| is_scam := true;
            confidence := py_min (true_div (score heuristic) 15) f0_95;
            method := "heuristic";
            details := HeuristicDetails heuristic |}
  else
    emit (Classified full_context);;
    let llm_result := llm_fraud_classification env full_context in
    let scam_label :=
      match label llm_result with
      | Some l => bool_decide (Text.lower l = "scam")
      | None => false   (* [.lower()] raises; the handler swallows it *)
      end in
    if scam_label && PrimFloat.leb f0_75 (llm_confidence llm_result) then
      mret {| is_scam := true;
              confidence := llm_confidence llm_result;
              method := "llm";
              details := LlmDetails llm_result heuristic |}
    else if bool_decide (0 < score heuristic) then
      mret {| is_scam := false;
              confidence := true_div (score heuristic) 15;
              method := "heuristic_low";
              details := HeuristicDetails heuristic |}
    else
      mret {| is_scam := false; confidence := 0%float; method := "none";
              details := NoDetails |}.
End AiService.

(** ** app/services/conversation_engine.py *)

Module ConversationEngine.
(** [determine_conversation_stage] *)
Definition determine_conversation_stage (message_count : Z)
    (extracted_intel : intel_dict) : string :=
  let has_critical_info :=
    bool_decide (0 < length (get_list extracted_intel "upi_ids"))%nat
    || bool_decide (0 < length (get_list extracted_intel "urls"))%nat
    || bool_decide (0 < length (get_list extracted_intel "bank_accounts"))%nat in
  if bool_decide (message_count ≤ 2) then "trust"
  else if bool_decide (message_count ≤ 6) || negb has_critical_info then "extract"
  else "stall".
End ConversationEngine.

(** ** app/services/session_manager.py *)

(** A session object is shared between the table and whoever holds it: an
    assignment to one of its fields shows in the table's entry at once.
    [shared session] writes the holder's view of the object back. *)
Definition shared (session : SessionData) : M SessionData :=
  t ← get_sessions;
  put_sessions (<[sessionId session := session]> t);;
  mret session.

(** Truth value of a list, [if l:]. *)
Definition truthy {A} (l : list A) : bool :=
  match l with [] => false | _ => true end.

Module SessionManager.
Section session_manager.
Context `{PySet} (settings : Settings).

(** [timedelta(minutes=settings.SESSION_TIMEOUT_MINUTES)] *)
Definition timeout : Z := SESSION_TIMEOUT_MINUTES settings * 60 * 1000000.

(** [get_session]; [now] is the clock's reading *)
Definition get_session (now : Z) (session_id : string)
    : M (option SessionData) :=
  t ← get_sessions;
  match t !! session_id with
  | Some session =>
      let age := now - createdAt session in
      if bool_decide (timeout < age) then
        put_sessions (delete session_id t);;
        mret None
      else mret (Some session)
  | None => mret None
  end.

(** The [SessionData(...)] that [create_session] builds. *)
Definition new_session (now : Z) (session_id : string) : SessionData :=
  {| sessionId := session_id; history := []; stage := "trust";
     memory := ∅; totalMessages := 0; scamDetected := false;
     extractedIntelligence := no_intelligence;
     session_suspiciousKeywords := []; agentNotes := "";
     createdAt := now |}.

(** [create_session] *)
Definition create_session (now : Z) (session_id : string) : M SessionData :=
  let session := new_session now session_id in
  t ← get_sessions;
  put_sessions (<[session_id := session]> t);;
  mret session.

(** [get_or_create_session] *)
Definition get_or_create_session (env : Env) (session_id : string)
    : M SessionData :=
  session ← get_session (clock_lookup env) session_id;
  match session with
  | Some session => mret session
  | None => create_session (clock_create env) session_id
  end.

(** [update_session] *)
Definition update_session (session : SessionData) : M unit :=
  t ← get_sessions;
  put_sessions (<[sessionId session := session]> t).

(** [delete_session] *)
Definition delete_session (session_id : string) : M unit :=
  t ← get_sessions;
  if bool_decide (session_id ∈ dom t) then put_sessions (delete session_id t)
  else mret tt.

(** [add_message] *)
Definition add_message (session : SessionData) (message : Message)
    : M SessionData :=
  session ← shared (set_history (history session ++ [message]) session);
  session ← shared (set_totalMessages (totalMessages session + 1) session);
  update_session session;;
  mret session.

(** [update_intelligence] *)
Definition update_intelligence (session : SessionData) (new_intel : intel_dict)
    : M SessionData :=
  session ←
    (if truthy (get_list new_intel "upi_ids") then
       let existing_upi := upiIds (extractedIntelligence session) in
       shared (set_extractedIntelligence
         (set_upiIds (set_list (existing_upi ++ get_list new_intel "upi_ids"))
            (extractedIntelligence session)) session)
     else mret session);
  session ←
    (if truthy (get_list new_intel "urls") then
       let existing_urls := phishingLinks (extractedIntelligence session) in
       shared (set_extractedIntelligence
         (set_phishingLinks (set_list (existing_urls ++ get_list new_intel "urls"))
            (extractedIntelligence session)) session)
     else mret session);
  session ←
    (if truthy (get_list new_intel "phone_numbers") then
       let existing_phones := phoneNumbers (extractedIntelligence session) in
       shared (set_extractedIntelligence
         (set_phoneNumbers
            (set_list (existing_phones ++ get_list new_intel "phone_numbers"))
            (extractedIntelligence session)) session)
     else mret session);
  session ←
    (if truthy (get_list new_intel "bank_accounts") then
       let existing_accounts := bankAccounts (extractedIntelligence session) in
       shared (set_extractedIntelligence
         (set_bankAccounts
            (set_list (existing_accounts ++ get_list new_intel "bank_accounts"))
            (extractedIntelligence session)) session)
     else mret session);
  update_session session;;
  mret session.

(** [cleanup_old_sessions] *)
Definition cleanup_old_sessions (now : Z) : M unit :=
  t ← get_sessions;
  let expired_sessions :=
    (filter (λ item, timeout < now - createdAt item.2) (map_to_list t)).*1 in
  foldr (λ session_id rest, delete_session session_id;; rest)
    (mret tt) expired_sessions.

(** [get_session_count] *)
Definition get_session_count : M Z :=
  t ← get_sessions; mret (Z.of_nat (size t)).
End session_manager.
End SessionManager.

(** ** app/services/callback_service.py *)

Module CallbackService.
Section callback_service.
Context (settings : Settings).

(** [should_send_callback] *)
Definition should_send_callback (session : SessionData) : bool :=
  let has_intelligence :=
    bool_decide (0 < length (upiIds (extractedIntelligence session)))%nat
    || bool_decide (0 < length (phishingLinks (extractedIntelligence session)))%nat
    || bool_decide (0 < length (phoneNumbers (extractedIntelligence session)))%nat
    || bool_decide (0 < length (bankAccounts (extractedIntelligence session)))%nat
    || bool_decide (0 < length (suspiciousKeywords (extractedIntelligence session)))%nat in
  let reached_max_turns :=
    bool_decide (MAX_TURNS settings ≤ totalMessages session) in
  scamDetected session
  && bool_decide (3 ≤ totalMessages session)
  && (has_intelligence || reached_max_turns).

(** The [FinalResultPayload(...)] that [send_final_result] builds. *)
Definition final_payload (session : SessionData) : FinalResultPayload :=
  {| payload_sessionId := sessionId session;
     payload_scamDetected := scamDetected session;
     totalMessagesExchanged := totalMessages session;
     payload_extractedIntelligence := extractedIntelligence session;
     payload_agentNotes :=
       if bool_decide (agentNotes session = "")
       then "Conversation completed" else agentNotes session |}.

(** [send_final_result]: the payload is posted and the outcome of the
    post, whatever it is, comes back as a boolean. *)
Definition send_final_result (env : Env) (session : SessionData) : M bool :=
  let payload := final_payload session in
  emit (Delivered payload);;
  mret (post_final_result env payload).

(** [build_agent_notes] *)
Definition build_agent_notes (session : SessionData) : string :=
  let intel := extractedIntelligence session in
  let notes : list string := [] in
  let notes :=
    if truthy (suspiciousKeywords intel) then
      let keywords := take 5 (suspiciousKeywords intel) in
      (notes ++ ["Used tactics: " +:+ AiService.join ", " keywords])%list
    else notes in
  let requested_items : list string := [] in
  let requested_items :=
    if truthy (upiIds intel) then
      (requested_items
         ++ ["UPI IDs (" +:+ pretty (length (upiIds intel)) +:+ ")"])%list
    else requested_items in
  let requested_items :=
    if truthy (phishingLinks intel) then
      (requested_items
         ++ ["malicious links (" +:+ pretty (length (phishingLinks intel))
             +:+ ")"])%list
    else requested_items in
  let requested_items :=
    if truthy (bankAccounts intel) then
      (requested_items
         ++ ["bank accounts (" +:+ pretty (length (bankAccounts intel))
             +:+ ")"])%list
    else requested_items in
  let notes :=
    if truthy requested_items then
      (notes ++ ["Requested: " +:+ AiService.join ", " requested_items])%list
    else notes in
  let notes :=
    if bool_decide (7 < totalMessages session) then
      (notes ++ ["Highly persistent (" +:+ pretty (totalMessages session)
                 +:+ " messages)"])%list
    else if bool_decide (4 < totalMessages session) then
      (notes ++ ["Moderately persistent"])%list
    else notes in
  if truthy notes then AiService.join ". " notes +:+ "."
  else "Limited engagement, minimal intelligence extracted.".
End callback_service.
End CallbackService.

(** ** app/core/security.py and app/api/v1/honeypot.py *)

Inductive HttpResult :=
  | Http401                          (* no API key *)
  | Http403                          (* wrong API key *)
  | Http200 (response : HoneypotResponse).

Module Honeypot.
Import AiService ConversationEngine SessionManager CallbackService Extractor.
Section honeypot.
Context `{PySet} (settings : Settings).

(** [verify_api_key]: the error it raises, if any *)
Definition verify_api_key (api_key : option string) : option HttpResult :=
  match api_key with
  | None => Some Http401
  | Some key =>
      if bool_decide (key = "") then Some Http401
      else if bool_decide (key ≠ API_KEY settings) then Some Http403
      else None
  end.

(** The loop that copies the extraction into [session.memory]. *)
Definition remember (extracted memory : intel_dict) : intel_dict :=
  map_fold (λ key values memory,
      if truthy values then
        let existing := get_list memory key in
        <[key := set_list (existing ++ values)]> memory
      else memory)
    memory extracted.

(** [l[:-1]] *)
Definition but_last {A} (l : list A) : list A := take (length l - 1)%nat l.

(** [handle_message]. Nothing in the body can raise (the services catch
    what their collaborators raise), so the answer is 200 once the key is
    accepted. The extraction over the agent's own reply is only logged and
    leaves no trace here. *)
Definition handle_message (env : Env) (request : HoneypotRequest)
    (x_api_key : option string) : M HttpResult :=
  match verify_api_key x_api_key with
  | Some error => mret error
  | None =>
    let session_id := request_sessionId request in
    let current_message := message request in
    session ← get_or_create_session settings env session_id;
    session ← add_message session current_message;
    session ←
      (if negb (scamDetected session) then
         detection_result ← predict_scam env (text current_message)
                              (conversationHistory request);
         if is_scam detection_result then
           session ← shared (set_scamDetected true session);
           match details detection_result with
           | HeuristicDetails heuristic =>
               if truthy (matched_keywords heuristic) then
                 let extended :=
                   (suspiciousKeywords (extractedIntelligence session)
                    ++ matched_keywords heuristic)%list in
                 shared (set_extractedIntelligence
                   (set_suspiciousKeywords (set_list extended)
                      (extractedIntelligence session)) session)
               else mret session
           | _ => mret session
           end
         else mret session
       else mret session);
    if negb (scamDetected session) then
      mret (Http200 {| status := "success";
                       reply := "Thank you for the message." |})
    else
      let extracted := extract_entities (text current_message) in
      session ← update_intelligence session extracted;
      session ← shared (set_memory (remember extracted (memory session)) session);
      session ← shared (set_stage
        (determine_conversation_stage (totalMessages session) extracted)
        session);
      let prompt :=
        {| prompt_current_message := text current_message;
           prompt_history :=
             (λ m, (sender m, text m)) <$> but_last (history session);
           prompt_stage := stage session;
           prompt_memory := memory session |} in
      emit (Generated prompt);;
      let agent_reply := generate_agent_reply env prompt in
      let agent_message :=
        {| sender := "user"; text := agent_reply;
           timestamp := timestamp current_message + 1000 |} in
      session ← add_message session agent_message;
      update_session session;;
      session ←
        (if should_send_callback settings session then
           session ← shared (set_agentNotes (build_agent_notes session) session);
           update_session session;;
           send_final_result env session;;
           mret session
         else mret session);
      session ←
        (if bool_decide (MAX_TURNS settings ≤ totalMessages session) then
           if scamDetected session && bool_decide (agentNotes session = "") then
             session ← shared (set_agentNotes (build_agent_notes session) session);
             send_final_result env session;;
             mret session
           else mret session
         else mret session);
      mret (Http200 {| status := "success"; reply := agent_reply |})
  end.

(** The events recorded so far. *)
Definition get_trace : M (list Event) := λ w, (trace w, w).

(** A sequence of requests served one after the other, each in the
    environment it meets; every answer comes with the events of its
    request. *)
Fixpoint serve (requests : list (Env * HoneypotRequest * option string))
    : M (list (HttpResult * list Event)) :=
  match requests with
  | [] => mret []
  | (env, request, x_api_key) :: rest =>
      before ← get_trace;
      result ← handle_message env request x_api_key;
      after ← get_trace;
      results ← serve rest;
      mret ((result, drop (length before) after) :: results)
  end.
End honeypot.
End Honeypot.


(** * Properties *)

Import Text Extractor AiService ConversationEngine SessionManager
  CallbackService Honeypot.

(** ** The intelligence merger *)

Section merge_properties.
Context `{PySet}.

Lemma merge_intelligence_lookup existing new key :
  merge_intelligence existing new !! key =
    if decide (key ∈ dom existing ∪ dom new)
    then Some (set_list (get_list existing key ++ get_list new key))
    else None.
Proof.
  unfold merge_intelligence; cbv zeta.
  generalize (dom existing ∪ dom new); intros X.
  set (v := set_list (get_list existing key ++ get_list new key)).
  assert (Hinv : (key ∈ X → set_fold (λ key merged,
      <[key := set_list (get_list existing key ++ get_list new key)]> merged)
      (∅ : intel_dict) X !! key = Some v) ∧
    (key ∉ X → set_fold (λ key merged,
      <[key := set_list (get_list existing key ++ get_list new key)]> merged)
      (∅ : intel_dict) X !! key = None)).
  { apply (set_fold_ind_L (λ (m : intel_dict) (Y : gset string),
      (key ∈ Y → m !! key = Some v) ∧ (key ∉ Y → m !! key = None))).
    - split; [set_solver | intros _; apply lookup_empty].
    - intros x Y m Hx [IH1 IH2]. destruct (decide (x = key)) as [->|Hne].
      + rewrite lookup_insert_eq. split; [done | set_solver].
      + rewrite lookup_insert_ne by done. split; intros Hkey.
        * apply IH1. apply elem_of_union in Hkey as [Hkey|Hkey]; [|done].
          apply elem_of_singleton in Hkey. congruence.
        * apply IH2. intros HY. apply Hkey, elem_of_union. by right. }
  destruct Hinv as [H1 H2]. destruct (decide (key ∈ X)); auto.
Qed.

Lemma merge_intelligence_dom existing new :
  dom (merge_intelligence existing new) = dom existing ∪ dom new.
Proof.
  apply set_eq; intros key. rewrite elem_of_dom, merge_intelligence_lookup.
  destruct (decide (key ∈ dom existing ∪ dom new)) as [Hin|Hout].
  - split; [done | intros _; by eexists].
  - split; [by intros [? ?] | done].
Qed.

Lemma get_list_absent (d : intel_dict) key : key ∉ dom d → get_list d key = [].
Proof. intros Hk. unfold get_list. by rewrite (not_elem_of_dom_1 d key Hk). Qed.

Lemma category_set_merge existing new key :
  category_set (merge_intelligence existing new) key =
    category_set existing key ∪ category_set new key.
Proof.
  unfold category_set at 1, get_list at 1.
  rewrite merge_intelligence_lookup.
  destruct (decide (key ∈ dom existing ∪ dom new)) as [Hin|Hout]; simpl.
  - apply set_eq; intros x. unfold category_set.
    rewrite elem_of_union, !elem_of_list_to_set, set_list_elem, elem_of_app.
    done.
  - unfold category_set.
    rewrite !get_list_absent by set_solver. set_solver.
Qed.

Lemma category_set_empty_intelligence keys key :
  category_set (empty_intelligence keys) key = ∅.
Proof.
  unfold category_set, get_list, empty_intelligence.
  rewrite lookup_gset_to_gmap. by destruct (decide (key ∈ keys)); simplify_option_eq.
Qed.

(** C5. Seen category by category as sets of strings, the merge is the
    union: it is commutative, associative and idempotent, and merging
    with an empty intelligence changes nothing. *)
Theorem merge_intelligence_set_laws (A B C : intel_dict)
    (keys : gset string) (key : string) :
  category_set (merge_intelligence A B) key
    = category_set (merge_intelligence B A) key
  ∧ category_set (merge_intelligence (merge_intelligence A B) C) key
    = category_set (merge_intelligence A (merge_intelligence B C)) key
  ∧ category_set (merge_intelligence A A) key = category_set A key
  ∧ category_set (merge_intelligence A (empty_intelligence keys)) key
    = category_set A key.
Proof.
  rewrite !category_set_merge, category_set_empty_intelligence.
  repeat split.
  - apply (comm_L (∪)).
  - symmetry. apply (assoc_L (∪)).
  - apply (idemp_L (∪)).
  - apply (right_id_L ∅ (∪)).
Qed.

(** The categories present after a merge are those of either side. *)
Lemma merge_intelligence_keys_comm (A B : intel_dict) :
  dom (merge_intelligence A B) = dom (merge_intelligence B A).
Proof. rewrite !merge_intelligence_dom. apply (comm_L (∪)). Qed.

Lemma merge_intelligence_empty_dict_keys (A : intel_dict) :
  dom (merge_intelligence A ∅) = dom A.
Proof. rewrite merge_intelligence_dom, dom_empty_L. apply (right_id_L ∅ (∪)). Qed.
End merge_properties.

(** ** The entity extractor *)

Section extractor_properties.
Context `{PySet}.

Lemma entities_lookups (u l i p b e : list string) :
  get_list (entities u l i p b e) "upi_ids" = u
  ∧ get_list (entities u l i p b e) "urls" = l
  ∧ get_list (entities u l i p b e) "ifsc_codes" = i
  ∧ get_list (entities u l i p b e) "phone_numbers" = p
  ∧ get_list (entities u l i p b e) "bank_accounts" = b
  ∧ get_list (entities u l i p b e) "emails" = e.
Proof. unfold get_list, entities. by simplify_map_eq. Qed.

Lemma extract_entities_phone_numbers text :
  get_list (extract_entities text) "phone_numbers" =
    if bool_decide (text = "") then []
    else set_list (findall PHONE_REGEX text).
Proof.
  unfold extract_entities. case_bool_decide; cbv zeta;
    apply entities_lookups.
Qed.

Lemma extract_entities_bank_accounts text :
  get_list (extract_entities text) "bank_accounts" =
    if bool_decide (text = "") then []
    else set_list (filter
      (λ acc, (9 ≤ String.length acc)%nat
              ∧ acc ∉ set_list (findall PHONE_REGEX text))
      (findall BANK_ACCOUNT_REGEX text)).
Proof.
  unfold extract_entities. case_bool_decide; cbv zeta;
    apply entities_lookups.
Qed.

(** C6. For every text, the account numbers the extractor returns and the
    phone numbers it returns for the same text have no value in common. *)
Theorem bank_accounts_disjoint_phone_numbers (text : string) :
  category_set (extract_entities text) "bank_accounts"
  ## category_set (extract_entities text) "phone_numbers".
Proof.
  unfold category_set.
  rewrite extract_entities_bank_accounts, extract_entities_phone_numbers.
  case_bool_decide; [set_solver|].
  intros acc Hacc Hphone.
  apply elem_of_list_to_set, set_list_elem, list_elem_of_filter in Hacc.
  apply elem_of_list_to_set in Hphone.
  by destruct Hacc as [[_ Hnot] _].
Qed.
End extractor_properties.

(** The subtraction matters: the account pattern alone matches a phone
    number, and the extractor files it under phone numbers only. *)
Example phone_is_not_an_account :
  let text := "call 9876543210 or pay to 123456789012" in
  findall BANK_ACCOUNT_REGEX text = ["9876543210"; "123456789012"]
  ∧ get_list (extract_entities text) "phone_numbers" = ["9876543210"]
  ∧ get_list (extract_entities text) "bank_accounts" = ["123456789012"].
Proof. vm_compute. done. Qed.

(** ** The callback policy *)

(** Some category of the session's intelligence holds a value. *)
Definition some_category_nonempty (intel : ExtractedIntelligence) : Prop :=
  upiIds intel ≠ [] ∨ phishingLinks intel ≠ [] ∨ phoneNumbers intel ≠ []
  ∨ bankAccounts intel ≠ [] ∨ suspiciousKeywords intel ≠ [].

Lemma positive_length_nonempty {A} (l : list A) :
  bool_decide (0 < length l)%nat = true ↔ l ≠ [].
Proof.
  rewrite bool_decide_eq_true. destruct l; simpl; split; try done; lia.
Qed.

(** C7. [should_send_callback] holds exactly when the scam is confirmed,
    at least three messages were exchanged, and either some intelligence
    category is non-empty or the message count has reached the maximum
    number of turns; so it fails for a session with two messages. *)
Theorem should_send_callback_spec (settings : Settings) (session : SessionData) :
  (should_send_callback settings session = true ↔
     scamDetected session = true
     ∧ 3 ≤ totalMessages session
     ∧ (some_category_nonempty (extractedIntelligence session)
        ∨ MAX_TURNS settings ≤ totalMessages session))
  ∧ (totalMessages session = 2 → should_send_callback settings session = false).
Proof.
  unfold should_send_callback, some_category_nonempty; cbv zeta.
  split.
  - rewrite !andb_true_iff, !orb_true_iff, !positive_length_nonempty,
      !bool_decide_eq_true.
    tauto.
  - intros ->. rewrite (bool_decide_eq_false_2 (3 ≤ 2)) by lia.
    by rewrite andb_false_r.
Qed.

(** A confirmed session with one keyword: two messages are not enough,
    three are. *)
Definition confirmed_session (total : Z) : SessionData :=
  {| sessionId := "s"; history := []; stage := "trust"; memory := ∅;
     totalMessages := total; scamDetected := true;
     extractedIntelligence := set_suspiciousKeywords ["otp"] no_intelligence;
     session_suspiciousKeywords := []; agentNotes := ""; createdAt := 0 |}.

Lemma should_send_callback_spec_witness :
  should_send_callback default_settings (confirmed_session 3) = true
  ∧ should_send_callback default_settings (confirmed_session 2) = false.
Proof.
  split.
  - apply (proj1 (should_send_callback_spec default_settings (confirmed_session 3))).
    split; [reflexivity|]. split; [simpl; lia|].
    left. unfold some_category_nonempty. simpl. do 4 right. discriminate.
  - apply (proj2 (should_send_callback_spec default_settings (confirmed_session 2))).
    reflexivity.
Defined.

(** ** The scam scorer *)

(** C4. When the keyword score of the text is at least 6, [predict_scam]
    declares a scam by the heuristic method with confidence
    [min(score / 15, 0.95)], and the only event of the call is its own
    entry: the classifier is not called. *)
Theorem predict_scam_heuristic_fast_path (env : Env) (text : string)
    (conversation_history : list Message) (w : World) :
  6 ≤ score (heuristic_scam_score text) →
  let '(result, w') := predict_scam env text conversation_history w in
  is_scam result = true
  ∧ method result = "heuristic"
  ∧ confidence result
    = py_min (true_div (score (heuristic_scam_score text)) 15) f0_95
  ∧ details result = HeuristicDetails (heuristic_scam_score text)
  ∧ trace w' = trace w ++ [Scored text]
  ∧ (∀ context, Classified context ∉ drop (length (trace w)) (trace w'))
  ∧ sessions w' = sessions w.
Proof.
  intros Hscore. unfold predict_scam.
  generalize dependent (heuristic_scam_score text); intros heuristic Hscore.
  unfold mbind, M_bind, emit; cbv zeta beta.
  rewrite bool_decide_eq_true_2 by done.
  unfold mret, M_ret; cbn [is_scam method confidence details trace sessions].
  repeat split.
  intros context. rewrite drop_app_length.
  intros Hin. apply list_elem_of_singleton in Hin. discriminate.
Qed.

(** An environment in which the classifier is never sure, the reply
    generator always asks the same question and the report sink accepts. *)
Definition quiet_env (now : Z) : Env :=
  {| clock_lookup := now; clock_create := now;
     llm_fraud_classification := λ _,
       {| label := Some "Uncertain"; llm_confidence := 0%float;
          reason := "LLM timeout" |};
     generate_agent_reply := λ _, "Sorry, can you explain again?";
     post_final_result := λ _, true |}.

Definition urgent_text : string :=
  "URGENT! Your bank account will be blocked today. Verify immediately by sharing your OTP.".

Example urgent_text_score :
  heuristic_scam_score urgent_text =
    {| score := 23;
       matched_keywords := ["otp"; "verify immediately"; "urgent"; "immediately";
                            "account will be blocked"; "bank account"] |}.
Proof. vm_compute. reflexivity. Qed.

Lemma predict_scam_heuristic_fast_path_witness :
  6 ≤ score (heuristic_scam_score urgent_text)
  ∧ let '(result, w') := predict_scam (quiet_env 0) urgent_text [] empty_world in
    is_scam result = true
    ∧ method result = "heuristic"
    ∧ confidence result
      = py_min (true_div (score (heuristic_scam_score urgent_text)) 15) f0_95
    ∧ details result = HeuristicDetails (heuristic_scam_score urgent_text)
    ∧ trace w' = trace empty_world ++ [Scored urgent_text]
    ∧ (∀ context,
         Classified context ∉ drop (length (trace empty_world)) (trace w'))
    ∧ sessions w' = sessions empty_world.
Proof.
  split.
  - vm_compute. discriminate.
  - apply (predict_scam_heuristic_fast_path (quiet_env 0) urgent_text []
             empty_world).
    vm_compute. discriminate.
Defined.

(** The cap applies from a score of 15 on; below it the quotient stands. *)
Example confidence_values :
  py_min (true_div 23 15) f0_95 = f0_95
  ∧ py_min (true_div 10 15) f0_95 = true_div 10 15
  ∧ PrimFloat.ltb (true_div 10 15) f0_95 = true.
Proof. vm_compute. done. Qed.

(** ** Running the services *)

Lemma bind_run {A B} (m : M A) (f : A → M B) (w w0 : World) (a : A) :
  m w = (a, w0) → (m ≫= f) w = f a w0.
Proof. unfold mbind, M_bind. by intros ->. Qed.

(** The table with the entry of [session] written. *)
Definition store (session : SessionData) (w : World) : World :=
  {| sessions := <[sessionId session := session]> (sessions w);
     trace := trace w |}.

(** The world with more events. *)
Definition record (events : list Event) (w : World) : World :=
  {| sessions := sessions w; trace := trace w ++ events |}.

Lemma shared_run session w : shared session w = (session, store session w).
Proof. reflexivity. Qed.

Lemma update_session_run session w :
  update_session session w = (tt, store session w).
Proof. reflexivity. Qed.

Lemma store_store s s' w :
  sessionId s = sessionId s' → store s' (store s w) = store s' w.
Proof.
  intros Heq. unfold store; simpl. by rewrite Heq, insert_insert_eq.
Qed.

Lemma store_record s events w :
  store s (record events w) = record events (store s w).
Proof. reflexivity. Qed.

Lemma record_record e1 e2 w : record e2 (record e1 w) = record (e1 ++ e2) w.
Proof. unfold record; simpl. by rewrite (assoc_L (++)). Qed.

Lemma record_nil w : record [] w = w.
Proof. destruct w. unfold record; simpl. by rewrite (right_id_L [] (++)). Qed.

Lemma emit_run e w : emit e w = (tt, record [e] w).
Proof. reflexivity. Qed.

(** Every session sits in the table under its own id. *)
Definition well_keyed (w : World) : Prop :=
  map_Forall (λ id session, sessionId session = id) (sessions w).

Lemma well_keyed_empty : well_keyed empty_world.
Proof. apply map_Forall_empty. Qed.

Lemma well_keyed_store s w : well_keyed w → well_keyed (store s w).
Proof. intros Hw. by apply map_Forall_insert_2. Qed.

Lemma well_keyed_record events w : well_keyed w → well_keyed (record events w).
Proof. done. Qed.

(** *** The session manager *)

Section session_manager_runs.
Context `{PySet} (settings : Settings).

(** The session is older than the timeout at time [now]. *)
Definition expired (now : Z) (session : SessionData) : Prop :=
  timeout settings < now - createdAt session.

#[export] Instance expired_dec now session : Decision (expired now session).
Proof. unfold expired. apply _. Defined.

Lemma get_session_expired now id w session :
  sessions w !! id = Some session → expired now session →
  get_session settings now id w
    = (None, {| sessions := delete id (sessions w); trace := trace w |}).
Proof.
  intros Hs Hexp. unfold get_session, mbind, M_bind, get_sessions.
  rewrite Hs. by rewrite bool_decide_eq_true_2.
Qed.

Lemma get_session_live now id w session :
  sessions w !! id = Some session → ¬ expired now session →
  get_session settings now id w = (Some session, w).
Proof.
  intros Hs Hexp. unfold get_session, mbind, M_bind, get_sessions.
  rewrite Hs. by rewrite bool_decide_eq_false_2.
Qed.

Lemma get_session_absent now id w :
  sessions w !! id = None → get_session settings now id w = (None, w).
Proof.
  intros Hs. unfold get_session, mbind, M_bind, get_sessions. by rewrite Hs.
Qed.

Lemma create_session_run now id w :
  create_session now id w = (new_session now id, store (new_session now id) w).
Proof. reflexivity. Qed.

(** The session a request works on: the live one, or a new one. *)
Definition current_session (env : Env) (id : string) (w : World) : SessionData :=
  match sessions w !! id with
  | Some session =>
      if bool_decide (expired (clock_lookup env) session)
      then new_session (clock_create env) id
      else session
  | None => new_session (clock_create env) id
  end.

Lemma current_session_id env id w :
  well_keyed w → sessionId (current_session env id w) = id.
Proof.
  intros Hw. unfold current_session.
  destruct (sessions w !! id) as [s|] eqn:Hs; [|done].
  case_bool_decide; [done|]. by apply Hw in Hs.
Qed.

Lemma get_or_create_session_run env id w :
  well_keyed w →
  get_or_create_session settings env id w
    = (current_session env id w, store (current_session env id w) w).
Proof.
  intros Hw. unfold get_or_create_session, current_session.
destruct (sessions w !! id) as [s|] eqn:Hs.
- case_bool_decide as Hexp.
  + erewrite bind_run by by eapply get_session_expired.
    cbv beta iota. rewrite create_session_run. f_equal.
    unfold store; simpl. by rewrite insert_delete_eq.
  + erewrite bind_run by by eapply get_session_live.
    cbv beta iota. unfold mret, M_ret. f_equal. destruct w as [t tr].
    unfold store; simpl in *. f_equal.
    symmetry. apply insert_id. by rewrite (Hw _ _ Hs).
- erewrite bind_run by by eapply get_session_absent.
  cbv beta iota. by rewrite create_session_run.
Qed.

(** [session] with one more message. *)
Definition with_message (message : Message) (session : SessionData)
    : SessionData :=
  set_totalMessages (totalMessages session + 1)
    (set_history (history session ++ [message]) session).

Lemma add_message_run session message w :
  add_message session message w
    = (with_message message session, store (with_message message session) w).
Proof.
  unfold add_message.
  erewrite bind_run by apply shared_run.
  erewrite bind_run by apply shared_run.
  erewrite bind_run by apply update_session_run.
  unfold mret, M_ret. by rewrite !store_store.
Qed.
End session_manager_runs.

(** ** Session expiry *)

(** C9. A lookup made when the session's age exceeds the timeout removes
    the session from the table and answers that there is none;
    [get_or_create_session] then puts a new session under the same id. *)
Theorem expired_session_is_evicted (settings : Settings) (env : Env)
    (id : string) (w : World) (session : SessionData) :
  sessions w !! id = Some session →
  timeout settings < clock_lookup env - createdAt session →
  get_session settings (clock_lookup env) id w
    = (None, {| sessions := delete id (sessions w); trace := trace w |})
  ∧ delete id (sessions w) !! id = None
  ∧ get_or_create_session settings env id w
    = (new_session (clock_create env) id,
       {| sessions := <[id := new_session (clock_create env) id]> (sessions w);
          trace := trace w |}).
Proof.
  intros Hs Hexp. split; [|split].
  - by eapply get_session_expired.
  - apply lookup_delete_eq.
  - unfold get_or_create_session.
    erewrite bind_run by by eapply get_session_expired.
    cbv beta iota. rewrite create_session_run.
    unfold store; simpl. by rewrite insert_delete_eq.
Qed.

(** A table with one session created at time 0, looked up one microsecond
    after the timeout of thirty minutes. *)
Definition old_world : World :=
  {| sessions := {[ "s" := confirmed_session 4 ]}; trace := [] |}.

Lemma expired_session_is_evicted_witness :
  (sessions old_world !! "s" = Some (confirmed_session 4)
   ∧ timeout default_settings
     < clock_lookup (quiet_env 1800000001) - createdAt (confirmed_session 4))
  ∧ get_session default_settings (clock_lookup (quiet_env 1800000001)) "s" old_world
    = (None, {| sessions := delete "s" (sessions old_world);
               trace := trace old_world |})
  ∧ delete "s" (sessions old_world) !! "s" = None
  ∧ get_or_create_session default_settings (quiet_env 1800000001) "s" old_world
    = (new_session 1800000001 "s",
       {| sessions := <["s" := new_session 1800000001 "s"]> (sessions old_world);
          trace := trace old_world |}).
Proof.
  split.
  - split; [reflexivity | vm_compute; reflexivity].
  - apply (expired_session_is_evicted default_settings (quiet_env 1800000001)
             "s" old_world (confirmed_session 4)).
    + reflexivity.
    + vm_compute. reflexivity.
Defined.

(** One microsecond earlier the session is still there. *)
Example session_at_timeout_is_kept :
  get_session default_settings 1800000000 "s" old_world
  = (Some (confirmed_session 4), old_world).
Proof. vm_compute. reflexivity. Qed.

(** ** One turn of [handle_message], step by step *)

Section handler_runs.
Context `{PySet} (settings : Settings).

(** What [predict_scam] answers and which events it leaves, whatever the
    world it runs in. *)
Definition detection (env : Env) (text : string) (hist : list Message)
    : Detection :=
  (predict_scam env text hist empty_world).1.

Definition detection_events (env : Env) (text : string) (hist : list Message)
    : list Event :=
  trace (predict_scam env text hist empty_world).2.

Lemma predict_scam_run env text hist w :
  predict_scam env text hist w
    = (detection env text hist, record (detection_events env text hist) w).
Proof.
unfold detection, detection_events, predict_scam.
generalize (heuristic_scam_score text); intros heuristic.
unfold mbind, M_bind, emit, mret, M_ret, record; cbv zeta beta.
case_bool_decide; [reflexivity|].
generalize (llm_fraud_classification env); intros classify.
destruct (_ && _); [cbn; by rewrite <- (assoc_L (++))|].
case_bool_decide; cbn; by rewrite <- (assoc_L (++)).
Qed.

Lemma detection_events_scored env text hist :
  detection_events env text hist = [Scored text]
  ∨ ∃ context, detection_events env text hist = [Scored text; Classified context].
Proof.
unfold detection_events, predict_scam.
generalize (heuristic_scam_score text); intros heuristic.
unfold mbind, M_bind, emit, mret, M_ret; cbv zeta beta.
case_bool_decide; [by left|]. right.
generalize (llm_fraud_classification env); intros classify.
destruct (_ && _); [by eexists|].
case_bool_decide; by eexists.
Qed.

(** The details of a detection that declares a scam: the keyword score
    alone when it reached 6, the classifier's answer with it otherwise. *)
Lemma detection_details env text hist :
  let heuristic := heuristic_scam_score text in
  let d := detection env text hist in
  (6 ≤ score heuristic → details d = HeuristicDetails heuristic)
  ∧ (score heuristic < 6 → is_scam d = true →
       ∃ llm, details d = LlmDetails llm heuristic).
Proof.
cbv zeta. unfold detection, predict_scam.
generalize (heuristic_scam_score text). intros heuristic.
unfold mbind, M_bind, emit, mret, M_ret; cbv zeta beta.
case_bool_decide as Hscore.
- split; [done | lia].
- split; [lia|]. intros _.
  generalize (llm_fraud_classification env). intros classify.
  destruct (_ && _); [by eexists|]. by case_bool_decide.
Qed.

(** The session once a scam is declared: the flag is set and the keywords
    of a heuristic detection are added. *)
Definition flagged (d : Detection) (session : SessionData) : SessionData :=
  let session := set_scamDetected true session in
  match details d with
  | HeuristicDetails heuristic =>
      if truthy (matched_keywords heuristic) then
        set_extractedIntelligence
          (set_suspiciousKeywords
             (set_list (suspiciousKeywords (extractedIntelligence session)
                        ++ matched_keywords heuristic))
             (extractedIntelligence session)) session
      else session
  | _ => session
  end.

(** The session after the scam gate. *)
Definition after_scoring (env : Env) (request : HoneypotRequest)
    (session : SessionData) : SessionData :=
  if negb (scamDetected session) then
    let d := detection env (text (message request)) (conversationHistory request) in
    if is_scam d then flagged d session else session
  else session.

Definition scoring_events (env : Env) (request : HoneypotRequest)
    (session : SessionData) : list Event :=
  if negb (scamDetected session) then
    detection_events env (text (message request)) (conversationHistory request)
  else [].

(** The session after [update_intelligence]. *)
Definition add_category (new : list string) (old : list string) : list string :=
  if truthy new then set_list (old ++ new) else old.

Definition with_intelligence (new_intel : intel_dict) (session : SessionData)
    : SessionData :=
  let intel := extractedIntelligence session in
  set_extractedIntelligence
    {| bankAccounts :=
         add_category (get_list new_intel "bank_accounts") (bankAccounts intel);
       upiIds := add_category (get_list new_intel "upi_ids") (upiIds intel);
       phishingLinks := add_category (get_list new_intel "urls") (phishingLinks intel);
       phoneNumbers :=
         add_category (get_list new_intel "phone_numbers") (phoneNumbers intel);
       suspiciousKeywords := suspiciousKeywords intel |}
    session.

Lemma update_intelligence_run session new_intel w :
  update_intelligence session new_intel w
    = (with_intelligence new_intel session,
       store (with_intelligence new_intel session) w).
Proof.
  unfold update_intelligence, with_intelligence, add_category.
  destruct session as [id hist st mem tot scam [ba up pl pn sk] ssk notes cr].
  cbn [extractedIntelligence bankAccounts upiIds phishingLinks phoneNumbers
       suspiciousKeywords set_extractedIntelligence set_upiIds set_bankAccounts
       set_phishingLinks set_phoneNumbers sessionId history stage memory
       totalMessages scamDetected session_suspiciousKeywords agentNotes createdAt].
  generalize (get_list new_intel "upi_ids") (get_list new_intel "urls")
    (get_list new_intel "phone_numbers") (get_list new_intel "bank_accounts").
  intros u l p b.
  destruct (truthy u), (truthy l), (truthy p), (truthy b);
    unfold mbind, M_bind, shared, update_session, mret, M_ret, get_sessions,
      put_sessions, store;
    simpl; rewrite ?insert_insert_eq; reflexivity.
Qed.

(** The prompt of the turn and the reply to it. *)
Definition turn_prompt (request : HoneypotRequest) (session : SessionData)
    : Prompt :=
  {| prompt_current_message := text (message request);
     prompt_history := (λ m, (sender m, text m)) <$> but_last (history session);
     prompt_stage := stage session;
     prompt_memory := memory session |}.

(** The session after extraction, merge and stage computation. *)
Definition staged (request : HoneypotRequest) (session : SessionData)
    : SessionData :=
  let extracted := extract_entities (text (message request)) in
  let session := with_intelligence extracted session in
  let session := set_memory (remember extracted (memory session)) session in
  set_stage (determine_conversation_stage (totalMessages session) extracted)
    session.

Definition turn_reply (env : Env) (request : HoneypotRequest)
    (session : SessionData) : string :=
  generate_agent_reply env (turn_prompt request (staged request session)).

(** The session with the agent's reply in its history. *)
Definition replied (env : Env) (request : HoneypotRequest)
    (session : SessionData) : SessionData :=
  with_message
    {| sender := "user"; text := turn_reply env request session;
       timestamp := timestamp (message request) + 1000 |}
    (staged request session).

(** The first callback block: notes and delivery when the policy says so. *)
Definition after_callback (session : SessionData) : SessionData :=
  if should_send_callback settings session
  then set_agentNotes (build_agent_notes session) session
  else session.

Definition callback_events (session : SessionData) : list Event :=
  if should_send_callback settings session
  then [Delivered (final_payload (after_callback session))]
  else [].

(** The second block: the maximum number of turns. *)
Definition after_max_turns (session : SessionData) : SessionData :=
  if bool_decide (MAX_TURNS settings ≤ totalMessages session) then
    if scamDetected session && bool_decide (agentNotes session = "")
    then set_agentNotes (build_agent_notes session) session
    else session
  else session.

Definition max_turns_events (session : SessionData) : list Event :=
  if bool_decide (MAX_TURNS settings ≤ totalMessages session) then
    if scamDetected session && bool_decide (agentNotes session = "")
    then [Delivered (final_payload (after_max_turns session))]
    else []
  else [].

(** The session at the end of an engaged turn and the events of the turn
    after the scam gate. *)
Definition finished (env : Env) (request : HoneypotRequest)
    (session : SessionData) : SessionData :=
  after_max_turns (after_callback (replied env request session)).

Definition engaged_events (env : Env) (request : HoneypotRequest)
    (session : SessionData) : list Event :=
  [Generated (turn_prompt request (staged request session))]
  ++ callback_events (replied env request session)
  ++ max_turns_events (after_callback (replied env request session)).
Lemma send_final_result_run env session w :
  send_final_result env session w
    = (post_final_result env (final_payload session),
       record [Delivered (final_payload session)] w).
Proof. reflexivity. Qed.

(** The session of the request with the incoming message appended. *)
Definition arrived (env : Env) (request : HoneypotRequest) (w : World)
    : SessionData :=
  with_message (message request)
    (current_session settings env (request_sessionId request) w).

Definition canned_reply : HoneypotResponse :=
  {| status := "success"; reply := "Thank you for the message." |}.

Lemma handle_message_run env request x_api_key w :
  well_keyed w → verify_api_key settings x_api_key = None →
  handle_message settings env request x_api_key w =
    let s1 := arrived env request w in
    let s2 := after_scoring env request s1 in
    if negb (scamDetected s2)
    then (Http200 canned_reply,
          record (scoring_events env request s1) (store s2 w))
    else (Http200 {| status := "success"; reply := turn_reply env request s2 |},
          record (scoring_events env request s1 ++ engaged_events env request s2)
            (store (finished env request s2) w)).
Proof.
intros Hw Hkey. unfold handle_message. rewrite Hkey. cbv zeta.
erewrite bind_run by by apply get_or_create_session_run.
erewrite bind_run by apply add_message_run.
rewrite store_store by reflexivity.
fold (arrived env request w). set (s1 := arrived env request w).
rewrite (bind_run _ _ _
  (record (scoring_events env request s1) (store (after_scoring env request s1) w))
  (after_scoring env request s1)).
2: { unfold after_scoring, scoring_events.
     destruct (scamDetected s1) eqn:Hscam; cbn [negb]; cbv iota.
     - unfold mret, M_ret. by rewrite record_nil.
     - erewrite bind_run by apply predict_scam_run. cbv zeta beta.
       destruct (is_scam _) eqn:Hd; [|reflexivity].
       erewrite bind_run by apply shared_run. unfold flagged; cbv zeta beta.
       destruct (details _) as [|heuristic|];
         [|destruct (truthy (matched_keywords heuristic))|];
         unfold mret, M_ret; rewrite ?shared_run, !store_record;
         rewrite !store_store by reflexivity; reflexivity. }
set (s2 := after_scoring env request s1).
destruct (negb (scamDetected s2)) eqn:Hs2; [reflexivity|].
erewrite bind_run by apply update_intelligence_run.
erewrite bind_run by apply shared_run.
erewrite bind_run by apply shared_run.
erewrite bind_run by apply emit_run.
erewrite bind_run by apply add_message_run.
erewrite bind_run by apply update_session_run.
rewrite !store_record. rewrite !store_store by reflexivity.
match goal with |- context [should_send_callback settings ?x] =>
  change x with (replied env request s2) end.
change (generate_agent_reply env _) with (turn_reply env request s2).
change (Generated _) with (Generated (turn_prompt request (staged request s2))).
set (s6 := replied env request s2).
set (scored := scoring_events env request s1).
rewrite (bind_run _ _ _
  (record ([Generated (turn_prompt request (staged request s2))]
           ++ callback_events s6)
     (record scored (store (after_callback s6) w)))
  (after_callback s6)).
2: { unfold callback_events, after_callback.
     destruct (should_send_callback settings s6) eqn:Hsend.
     - erewrite bind_run by apply shared_run.
       erewrite bind_run by apply update_session_run.
       erewrite bind_run by apply send_final_result_run.
       unfold mret, M_ret. rewrite !store_record, record_record.
       by rewrite !store_store by reflexivity.
     - unfold mret, M_ret. by rewrite (right_id_L [] (++)). }
set (s7 := after_callback s6).
rewrite (bind_run _ _ _
  (record ([Generated (turn_prompt request (staged request s2))]
           ++ callback_events s6 ++ max_turns_events s7)
     (record scored (store (after_max_turns s7) w)))
  (after_max_turns s7)).
2: { unfold max_turns_events, after_max_turns.
     destruct (bool_decide (MAX_TURNS settings ≤ totalMessages s7)).
     - destruct (scamDetected s7 && bool_decide (agentNotes s7 = "")).
       + erewrite bind_run by apply shared_run.
         erewrite bind_run by apply send_final_result_run.
         unfold mret, M_ret. rewrite !store_record, record_record.
         rewrite !store_store by reflexivity.
         by rewrite <- (assoc_L (++)).
       + unfold mret, M_ret. by rewrite !(right_id_L [] (++)).
     - unfold mret, M_ret. by rewrite !(right_id_L [] (++)). }
unfold mret, M_ret, finished, engaged_events.
by rewrite record_record.
Qed.

Lemma handle_message_refused env request x_api_key w error :
  verify_api_key settings x_api_key = Some error →
  handle_message settings env request x_api_key w = (error, w).
Proof. intros Hkey. unfold handle_message. by rewrite Hkey. Qed.

(** The session and the events a served request leaves. *)
Definition turn_session (env : Env) (request : HoneypotRequest) (w : World)
    : SessionData :=
  let s2 := after_scoring env request (arrived env request w) in
  if negb (scamDetected s2) then s2 else finished env request s2.

Definition turn_events (env : Env) (request : HoneypotRequest) (w : World)
    : list Event :=
  let s1 := arrived env request w in
  let s2 := after_scoring env request s1 in
  if negb (scamDetected s2) then scoring_events env request s1
  else scoring_events env request s1 ++ engaged_events env request s2.

Lemma handle_message_world env request x_api_key w :
  well_keyed w → verify_api_key settings x_api_key = None →
  (handle_message settings env request x_api_key w).2
    = record (turn_events env request w) (store (turn_session env request w) w).
Proof.
intros Hw Hkey. rewrite handle_message_run by done. cbv zeta.
unfold turn_events, turn_session; cbv zeta.
by destruct (negb _).
Qed.

Lemma sessionId_after_scoring env request session :
  sessionId (after_scoring env request session) = sessionId session.
Proof.
unfold after_scoring, flagged; cbv zeta.
destruct (negb _); [|done]. destruct (is_scam _); [|done].
destruct (details _) as [|heuristic|]; [done| |done].
by destruct (truthy _).
Qed.

Lemma finished_fields env request session :
  let s' := finished env request session in
  sessionId s' = sessionId session
  ∧ createdAt s' = createdAt session
  ∧ scamDetected s' = scamDetected session
  ∧ stage s' = stage (staged request session)
  ∧ totalMessages s' = totalMessages session + 1
  ∧ extractedIntelligence s'
    = extractedIntelligence
        (with_intelligence (extract_entities (text (message request))) session).
Proof.
cbv zeta. unfold finished, after_max_turns, after_callback.
set (s6 := replied env request session).
assert (sessionId s6 = sessionId session ∧ createdAt s6 = createdAt session
        ∧ scamDetected s6 = scamDetected session
        ∧ stage s6 = stage (staged request session)
        ∧ totalMessages s6 = totalMessages session + 1
        ∧ extractedIntelligence s6 = extractedIntelligence
            (with_intelligence (extract_entities (text (message request))) session))
  as Hfields by (repeat split; reflexivity).
clearbody s6.
destruct (should_send_callback settings s6);
  destruct (bool_decide _); try destruct (_ && _); exact Hfields.
Qed.

Lemma turn_session_id env request w :
  well_keyed w →
  sessionId (turn_session env request w) = request_sessionId request.
Proof.
intros Hw. unfold turn_session; cbv zeta.
assert (sessionId (after_scoring env request (arrived env request w))
        = request_sessionId request) as Hid.
{ rewrite sessionId_after_scoring. by apply current_session_id. }
destruct (negb _); [done|].
by rewrite (proj1 (finished_fields env request _)).
Qed.

Lemma handle_message_well_keyed env request x_api_key w :
  well_keyed w →
  well_keyed (handle_message settings env request x_api_key w).2.
Proof.
intros Hw. destruct (verify_api_key settings x_api_key) as [error|] eqn:Hkey.
- by erewrite handle_message_refused.
- rewrite handle_message_world by done.
  by apply well_keyed_record, well_keyed_store.
Qed.

(** A request leaves the sessions of the other ids as they are. *)
Lemma handle_message_other_session env request x_api_key w id :
  well_keyed w → id ≠ request_sessionId request →
  sessions (handle_message settings env request x_api_key w).2 !! id
    = sessions w !! id.
Proof.
intros Hw Hid. destruct (verify_api_key settings x_api_key) as [error|] eqn:Hkey.
- by erewrite handle_message_refused.
- rewrite handle_message_world by done. unfold record, store; simpl.
  rewrite turn_session_id by done. by rewrite lookup_insert_ne.
Qed.

(** A served request leaves its session in the table. *)
Lemma handle_message_own_session env request x_api_key w :
  well_keyed w → verify_api_key settings x_api_key = None →
  sessions (handle_message settings env request x_api_key w).2
    !! request_sessionId request
  = Some (turn_session env request w).
Proof.
intros Hw Hkey. rewrite handle_message_world by done.
unfold record, store; simpl.
rewrite turn_session_id by done. apply lookup_insert_eq.
Qed.

Lemma handle_message_trace env request x_api_key w :
  well_keyed w → verify_api_key settings x_api_key = None →
  trace (handle_message settings env request x_api_key w).2
    = trace w ++ turn_events env request w.
Proof. intros Hw Hkey. by rewrite handle_message_world. Qed.
End handler_runs.

(** ** What a turn does to the session *)

(** Every value of [old] is a value of [new], category by category. *)
Definition intelligence_included (old new : ExtractedIntelligence) : Prop :=
  bankAccounts old ⊆ bankAccounts new
  ∧ upiIds old ⊆ upiIds new
  ∧ phishingLinks old ⊆ phishingLinks new
  ∧ phoneNumbers old ⊆ phoneNumbers new
  ∧ suspiciousKeywords old ⊆ suspiciousKeywords new.

(** The events by which the scam scorer shows. *)
Definition is_scoring (e : Event) : Prop :=
  match e with
  | Scored _ | Classified _ => True
  | Generated _ | Delivered _ => False
  end.

Section turn_properties.
Context `{PySet} (settings : Settings).

Lemma intelligence_included_refl intel : intelligence_included intel intel.
Proof. by repeat split. Qed.

Lemma intelligence_included_trans a b c :
  intelligence_included a b → intelligence_included b c →
  intelligence_included a c.
Proof.
intros (?&?&?&?&?) (?&?&?&?&?). repeat split; by etrans.
Qed.

Lemma add_category_old new old : old ⊆ add_category new old.
Proof.
unfold add_category. destruct (truthy new); [|done].
intros x Hx. apply set_list_elem, elem_of_app. by left.
Qed.

Lemma add_category_new new old : new ⊆ add_category new old.
Proof.
unfold add_category. destruct new as [|y new]; [by intros x Hx%elem_of_nil|].
cbn [truthy]. intros x Hx. apply set_list_elem, elem_of_app. by right.
Qed.

Lemma elem_of_add_category new old x :
  x ∈ add_category new old ↔ x ∈ old ∨ x ∈ new.
Proof.
unfold add_category. destruct new as [|y new]; cbn [truthy].
- split; [by left | by intros [?|?%elem_of_nil]].
- by rewrite set_list_elem, elem_of_app.
Qed.

Lemma with_intelligence_included new_intel session :
  intelligence_included (extractedIntelligence session)
    (extractedIntelligence (with_intelligence new_intel session)).
Proof.
unfold with_intelligence; cbv zeta.
repeat split; cbn [extractedIntelligence set_extractedIntelligence bankAccounts
  upiIds phishingLinks phoneNumbers suspiciousKeywords];
  try apply add_category_old; done.
Qed.

Lemma scamDetected_flagged d session : scamDetected (flagged d session) = true.
Proof.
unfold flagged; cbv zeta.
destruct (details d) as [|heuristic|]; [done| |done].
by destruct (truthy _).
Qed.

Lemma flagged_included d session :
  intelligence_included (extractedIntelligence session)
    (extractedIntelligence (flagged d session)).
Proof.
unfold flagged; cbv zeta.
destruct (details d) as [|heuristic|];
  [apply intelligence_included_refl| |apply intelligence_included_refl].
destruct (truthy _); [|apply intelligence_included_refl].
repeat split; try done.
intros x Hx. cbn. apply set_list_elem, elem_of_app. by left.
Qed.

Lemma flagged_fields d session :
  createdAt (flagged d session) = createdAt session
  ∧ totalMessages (flagged d session) = totalMessages session
  ∧ history (flagged d session) = history session
  ∧ stage (flagged d session) = stage session
  ∧ memory (flagged d session) = memory session
  ∧ agentNotes (flagged d session) = agentNotes session.
Proof.
unfold flagged; cbv zeta.
destruct (details d) as [|heuristic|]; [done| |done].
by destruct (truthy _).
Qed.

(** The gate never takes the flag back. *)
Lemma after_scoring_keeps_flag env request session :
  scamDetected session = true →
  after_scoring env request session = session
  ∧ scoring_events env request session = [].
Proof. intros Hflag. unfold after_scoring, scoring_events. by rewrite Hflag. Qed.

Lemma after_scoring_fields env request session :
  createdAt (after_scoring env request session) = createdAt session
  ∧ totalMessages (after_scoring env request session) = totalMessages session
  ∧ intelligence_included (extractedIntelligence session)
      (extractedIntelligence (after_scoring env request session)).
Proof.
unfold after_scoring; cbv zeta.
destruct (negb _); [|by split; [|split; [|apply intelligence_included_refl]]].
destruct (is_scam _); [|by split; [|split; [|apply intelligence_included_refl]]].
split; [apply flagged_fields|]. split; [apply flagged_fields|].
apply flagged_included.
Qed.

(** Whether the turn was engaged shows in the flag of the session it leaves. *)
Lemma turn_session_flag env request w :
  scamDetected (turn_session settings env request w)
  = scamDetected (after_scoring env request (arrived settings env request w)).
Proof.
unfold turn_session; cbv zeta.
destruct (scamDetected (after_scoring _ _ _)) eqn:Hflag; cbn [negb]; [|done].
by rewrite (proj1 (proj2 (proj2 (finished_fields settings env request _)))).
Qed.

Lemma current_session_live env id w session :
  sessions w !! id = Some session → ¬ expired settings (clock_lookup env) session →
  current_session settings env id w = session.
Proof.
intros Hs Hlive. unfold current_session. rewrite Hs.
by rewrite bool_decide_eq_false_2.
Qed.

(** From the session a request works on to the session it leaves: same
    creation time, the flag is kept, and no value is lost. *)
Lemma turn_session_grows env request w :
  let s0 := current_session settings env (request_sessionId request) w in
  let s' := turn_session settings env request w in
  createdAt s' = createdAt s0
  ∧ (scamDetected s0 = true → scamDetected s' = true)
  ∧ intelligence_included (extractedIntelligence s0) (extractedIntelligence s').
Proof.
cbv zeta. unfold turn_session, arrived; cbv zeta.
set (s0 := current_session settings env (request_sessionId request) w).
set (s1 := with_message (message request) s0).
destruct (after_scoring_fields env request s1) as (Hcreated & _ & Hincl).
destruct (negb (scamDetected (after_scoring env request s1))) eqn:Hflag.
- split; [done|]. split; [|done].
  intros Hs0. destruct (after_scoring_keeps_flag env request s1 Hs0) as [Heq _].
  rewrite Heq in Hflag. cbn in Hflag. by rewrite Hs0 in Hflag.
- destruct (finished_fields settings env request (after_scoring env request s1))
    as (_ & Hcr & Hsc & _ & _ & Hei).
  rewrite Hcr, Hsc, Hei. split; [done|]. split.
  + intros _. by apply negb_false_iff.
  + eapply intelligence_included_trans; [exact Hincl|].
    apply with_intelligence_included.
Qed.
End turn_properties.

(** ** The rejected turn *)

Section rejected_turn.
Context `{PySet} (settings : Settings).

(** The turn is rejected exactly when the session was not flagged and the
    scorer does not declare a scam. *)
Lemma rejected_turn_iff env request w :
  scamDetected (turn_session settings env request w) = false ↔
  scamDetected (current_session settings env (request_sessionId request) w) = false
  ∧ is_scam (detection env (text (message request)) (conversationHistory request))
    = false.
Proof.
rewrite turn_session_flag. unfold after_scoring, arrived; cbv zeta.
generalize (current_session settings env (request_sessionId request) w).
generalize (detection env (text (message request)) (conversationHistory request)).
intros d s0.
change (scamDetected (with_message (message request) s0)) with (scamDetected s0).
destruct (scamDetected s0) eqn:Hs0; cbn [negb].
- change (scamDetected (with_message (message request) s0))
    with (scamDetected s0).
  rewrite Hs0. split; [discriminate | by intros [? _]].
- destruct (is_scam d).
  + rewrite scamDetected_flagged. split; [discriminate | by intros [_ ?]].
  + change (scamDetected (with_message (message request) s0))
      with (scamDetected s0).
    by rewrite Hs0.
Qed.

(** C10. On a turn that leaves the scam unconfirmed, the answer is the
    fixed acknowledgement and the session of the request differs from what
    it was (or from a new session, when there was none or it had expired)
    in two fields only: the incoming message is appended to the history
    and the message count is one more. *)
Theorem rejected_turn_frame (env : Env) (request : HoneypotRequest)
    (x_api_key : option string) (w : World) (session' : SessionData) :
  well_keyed w →
  verify_api_key settings x_api_key = None →
  sessions (handle_message settings env request x_api_key w).2
    !! request_sessionId request = Some session' →
  scamDetected session' = false →
  let session := current_session settings env (request_sessionId request) w in
  (handle_message settings env request x_api_key w).1
    = Http200 {| status := "success"; reply := "Thank you for the message." |}
  ∧ session' =
      {| sessionId := sessionId session;
         history := history session ++ [message request];
         stage := stage session;
         memory := memory session;
         totalMessages := totalMessages session + 1;
         scamDetected := scamDetected session;
         extractedIntelligence := extractedIntelligence session;
         session_suspiciousKeywords := session_suspiciousKeywords session;
         agentNotes := agentNotes session;
         createdAt := createdAt session |}.
Proof.
intros Hw Hkey Hs' Hflag. cbv zeta.
rewrite handle_message_own_session in Hs' by done.
injection Hs' as <-.
pose proof Hflag as Hrejected. rewrite turn_session_flag in Hrejected.
apply rejected_turn_iff in Hflag as [Hs0 Hd].
rewrite handle_message_run by done. cbv zeta.
unfold turn_session; cbv zeta. rewrite Hrejected. cbn [negb fst].
split; [done|].
unfold after_scoring, arrived; cbv zeta.
change (scamDetected (with_message (message request) ?s)) with (scamDetected s).
rewrite Hs0. cbn [negb]. rewrite Hd.
unfold with_message, set_totalMessages, set_history.
cbn [sessionId history stage memory totalMessages scamDetected
     extractedIntelligence session_suspiciousKeywords agentNotes createdAt].
by rewrite Hs0.
Qed.
End rejected_turn.

Definition valid_key : option string := Some (API_KEY default_settings).

Definition request_to (id : string) (text : string) : HoneypotRequest :=
  {| request_sessionId := id;
     message := {| sender := "scammer"; text := text; timestamp := 1000 |};
     conversationHistory := [] |}.

Definition greeting : HoneypotRequest := request_to "a" "Hello, how are you today?".

Lemma rejected_turn_frame_witness :
  (well_keyed empty_world
   ∧ verify_api_key default_settings valid_key = None
   ∧ sessions (handle_message default_settings (quiet_env 0) greeting valid_key
                 empty_world).2 !! "a"
     = Some (with_message (message greeting) (new_session 0 "a"))
   ∧ scamDetected
       (with_message (message greeting) (new_session 0 "a"))
     = false)
  ∧ (handle_message default_settings (quiet_env 0) greeting valid_key
       empty_world).1
    = Http200 {| status := "success"; reply := "Thank you for the message." |}
  ∧ with_message (message greeting) (new_session 0 "a") =
      {| sessionId := "a";
         history := [message greeting];
         stage := "trust";
         memory := ∅;
         totalMessages := 1;
         scamDetected := false;
         extractedIntelligence := no_intelligence;
         session_suspiciousKeywords := [];
         agentNotes := "";
         createdAt := 0 |}.
Proof.
split.
- split; [apply well_keyed_empty|]. split; [reflexivity|].
  split; [vm_compute; reflexivity | reflexivity].
- apply (rejected_turn_frame default_settings (quiet_env 0) greeting valid_key
           empty_world
           (with_message (message greeting) (new_session 0 "a"))).
  + apply well_keyed_empty.
  + reflexivity.
  + vm_compute. reflexivity.
  + reflexivity.
Defined.

(** ** The engaged turn *)

(** Every value an intelligence record holds, whatever its category. *)
Definition held (intel : ExtractedIntelligence) : list string :=
  bankAccounts intel ++ upiIds intel ++ phishingLinks intel
  ++ phoneNumbers intel ++ suspiciousKeywords intel.

Section engaged_turn.
Context `{PySet} (settings : Settings).

(** What [update_intelligence] leaves in the record: in each of its four
    categories the old values and the new ones, and the keywords as they
    were. *)
Lemma with_intelligence_union new_intel session :
  let old := extractedIntelligence session in
  let intel := extractedIntelligence (with_intelligence new_intel session) in
  (∀ x, x ∈ upiIds intel ↔ x ∈ upiIds old ∨ x ∈ get_list new_intel "upi_ids")
  ∧ (∀ x, x ∈ phishingLinks intel ↔
          x ∈ phishingLinks old ∨ x ∈ get_list new_intel "urls")
  ∧ (∀ x, x ∈ phoneNumbers intel ↔
          x ∈ phoneNumbers old ∨ x ∈ get_list new_intel "phone_numbers")
  ∧ (∀ x, x ∈ bankAccounts intel ↔
          x ∈ bankAccounts old ∨ x ∈ get_list new_intel "bank_accounts")
  ∧ suspiciousKeywords intel = suspiciousKeywords old.
Proof.
cbv zeta.
split; [intros x; apply elem_of_add_category|].
split; [intros x; apply elem_of_add_category|].
split; [intros x; apply elem_of_add_category|].
split; [intros x; apply elem_of_add_category|].
reflexivity.
Qed.

(** What the scam gate leaves in the record of a session it lets through:
    the four categories as they were, and the keywords with those the
    scorer matched, if this is the turn that flags the session and the
    keyword score decided. *)
Lemma after_scoring_intelligence env request session :
  let heuristic := heuristic_scam_score (text (message request)) in
  let old := extractedIntelligence session in
  let intel := extractedIntelligence (after_scoring env request session) in
  scamDetected (after_scoring env request session) = true →
  upiIds intel = upiIds old
  ∧ phishingLinks intel = phishingLinks old
  ∧ phoneNumbers intel = phoneNumbers old
  ∧ bankAccounts intel = bankAccounts old
  ∧ ∀ x, x ∈ suspiciousKeywords intel ↔
         x ∈ suspiciousKeywords old
         ∨ (scamDetected session = false ∧ 6 ≤ score heuristic
            ∧ x ∈ matched_keywords heuristic).
Proof.
cbv zeta. unfold after_scoring; cbv zeta.
destruct (detection_details env (text (message request))
            (conversationHistory request)) as [Hhigh Hlow].
cbv zeta in Hhigh, Hlow.
generalize dependent (detection env (text (message request))
                        (conversationHistory request)).
generalize (heuristic_scam_score (text (message request))).
intros heuristic d Hhigh Hlow.
destruct (scamDetected session) eqn:Hs0; cbn [negb].
{ intros _. do 4 (split; [reflexivity|]).
  intros x. split; [by left|]. by intros [?|[? _]]. }
destruct (is_scam d) eqn:Hd; [|congruence].
intros _. unfold flagged; cbv zeta.
destruct (decide (6 ≤ score heuristic)) as [Hscore|Hscore].
- rewrite (Hhigh Hscore).
  destruct (matched_keywords heuristic) as [|k ks] eqn:Hm; cbn [truthy].
  + do 4 (split; [reflexivity|]).
    intros x. split; [by left|]. by intros [?|(_ & _ & ?%elem_of_nil)].
  + do 4 (split; [reflexivity|]).
    intros x. cbn. rewrite set_list_elem, elem_of_app. tauto.
- destruct (Hlow ltac:(lia) eq_refl) as [llm ->].
  do 4 (split; [reflexivity|]).
  intros x. split; [by left|]. intros [?|(_ & ? & _)]; [done | lia].
Qed.

(** The stage an engaged turn stores: the stage engine applied to the
    message count reached when the incoming message was appended (one less
    than the count the turn ends with, which includes the reply) and to
    the entities extracted from the current message alone. *)
Lemma engaged_turn_stage (env : Env) (request : HoneypotRequest)
    (x_api_key : option string) (w : World) (session' : SessionData) :
  well_keyed w →
  verify_api_key settings x_api_key = None →
  sessions (handle_message settings env request x_api_key w).2
    !! request_sessionId request = Some session' →
  scamDetected session' = true →
  stage session'
    = determine_conversation_stage (totalMessages session' - 1)
        (extract_entities (text (message request)))
  ∧ totalMessages session' - 1
    = totalMessages
        (current_session settings env (request_sessionId request) w) + 1.
Proof.
intros Hw Hkey Hs' Hflag.
rewrite handle_message_own_session in Hs' by done.
injection Hs' as <-.
pose proof Hflag as Hengaged. rewrite turn_session_flag in Hengaged.
unfold turn_session; cbv zeta. rewrite Hengaged. cbn [negb].
set (s2 := after_scoring env request (arrived settings env request w)).
destruct (finished_fields settings env request s2)
  as (_ & _ & _ & Hstage & Htotal & _).
rewrite Hstage, Htotal.
replace (totalMessages s2 + 1 - 1) with (totalMessages s2) by lia.
split; [reflexivity|].
unfold s2. rewrite (proj1 (proj2 (after_scoring_fields env request _))).
reflexivity.
Qed.

(** C3, as the code has it. Let [session] be the session the request works
    on (the live session of the id, or a new one) and [session'] the one it
    leaves. After an engaged turn each of the four categories payment
    handles, links, phone numbers and account numbers holds exactly the
    values it held in [session] and the values the extractor yields for it
    from the message; the keywords are those of [session], with the
    keywords the scorer matched when this turn flags the session on the
    keyword score. So the record holds nothing else: what the extractor
    yields as e-mail addresses or IFSC codes is not accumulated. And
    whatever the turn, a session that was live when the request came keeps
    every value it had, in every category. *)
Theorem engaged_turn_intelligence (env : Env) (request : HoneypotRequest)
    (x_api_key : option string) (w : World) (session' : SessionData) :
  well_keyed w →
  verify_api_key settings x_api_key = None →
  sessions (handle_message settings env request x_api_key w).2
    !! request_sessionId request = Some session' →
  let session := current_session settings env (request_sessionId request) w in
  let extracted := extract_entities (text (message request)) in
  let heuristic := heuristic_scam_score (text (message request)) in
  let old := extractedIntelligence session in
  let intel := extractedIntelligence session' in
  (scamDetected session' = true →
     (∀ x, x ∈ upiIds intel ↔
           x ∈ upiIds old ∨ x ∈ get_list extracted "upi_ids")
     ∧ (∀ x, x ∈ phishingLinks intel ↔
             x ∈ phishingLinks old ∨ x ∈ get_list extracted "urls")
     ∧ (∀ x, x ∈ phoneNumbers intel ↔
             x ∈ phoneNumbers old ∨ x ∈ get_list extracted "phone_numbers")
     ∧ (∀ x, x ∈ bankAccounts intel ↔
             x ∈ bankAccounts old ∨ x ∈ get_list extracted "bank_accounts")
     ∧ (∀ x, x ∈ suspiciousKeywords intel ↔
             x ∈ suspiciousKeywords old
             ∨ (scamDetected session = false ∧ 6 ≤ score heuristic
                ∧ x ∈ matched_keywords heuristic))
     ∧ (∀ x, x ∈ held intel →
             x ∈ held old
             ∨ x ∈ get_list extracted "upi_ids"
             ∨ x ∈ get_list extracted "urls"
             ∨ x ∈ get_list extracted "phone_numbers"
             ∨ x ∈ get_list extracted "bank_accounts"
             ∨ x ∈ matched_keywords heuristic))
  ∧ (∀ live,
       sessions w !! request_sessionId request = Some live →
       ¬ expired settings (clock_lookup env) live →
       intelligence_included (extractedIntelligence live) intel).
Proof.
intros Hw Hkey Hs'. cbv zeta.
rewrite handle_message_own_session in Hs' by done.
injection Hs' as <-.
split.
- intros Hflag. pose proof Hflag as Hengaged.
  rewrite turn_session_flag in Hengaged.
  unfold turn_session; cbv zeta. rewrite Hengaged. cbn [negb].
  destruct (finished_fields settings env request
              (after_scoring env request (arrived settings env request w)))
    as (_ & _ & _ & _ & _ & ->).
  destruct (with_intelligence_union (extract_entities (text (message request)))
              (after_scoring env request (arrived settings env request w)))
    as (Hu & Hl & Hp & Hb & Hk).
  destruct (after_scoring_intelligence env request
              (arrived settings env request w) Hengaged)
    as (Eu & El & Ep & Eb & Ek).
  cbv zeta in Hu, Hl, Hp, Hb, Hk.
  change (extractedIntelligence (arrived settings env request w))
    with (extractedIntelligence
            (current_session settings env (request_sessionId request) w))
    in Eu, El, Ep, Eb, Ek.
  change (scamDetected (arrived settings env request w))
    with (scamDetected
            (current_session settings env (request_sessionId request) w))
    in Ek.
  rewrite Eu in Hu. rewrite El in Hl. rewrite Ep in Hp. rewrite Eb in Hb.
  rewrite <- Hk in Ek.
  generalize dependent (heuristic_scam_score (text (message request))).
  intros heuristic Ek.
  do 5 (split; [assumption|]).
  intros x. unfold held. rewrite !elem_of_app.
  rewrite (Hu x), (Hl x), (Hp x), (Hb x), (Ek x). tauto.
- intros live Hs Hlive.
  destruct (turn_session_grows settings env request w) as (_ & _ & Hincl).
  by rewrite (current_session_live settings env _ w live) in Hincl.
Qed.
End engaged_turn.

(** ** Sequences of requests *)

Section serving.
Context `{PySet} (settings : Settings).

Lemma serve_cons env request x_api_key rest w :
  serve settings ((env, request, x_api_key) :: rest) w =
    let step := handle_message settings env request x_api_key w in
    let later := serve settings rest step.2 in
    ((step.1, drop (length (trace w)) (trace step.2)) :: later.1, later.2).
Proof.
cbv zeta. cbn [serve]. unfold mbind, M_bind, get_trace, mret, M_ret.
destruct (handle_message settings env request x_api_key w) as [result w1].
cbn [fst snd]. by destruct (serve settings rest w1) as [results w2].
Qed.

Lemma serve_well_keyed requests w :
  well_keyed w → well_keyed (serve settings requests w).2.
Proof.
revert w. induction requests as [|[[env request] x_api_key] rest IH]; intros w Hw.
- done.
- rewrite serve_cons. cbv zeta. cbn [snd].
  by apply IH, handle_message_well_keyed.
Qed.

(** The events of one request. *)
Lemma handle_message_events env request x_api_key w :
  well_keyed w →
  drop (length (trace w))
    (trace (handle_message settings env request x_api_key w).2)
  = match verify_api_key settings x_api_key with
    | Some _ => []
    | None => turn_events settings env request w
    end.
Proof.
intros Hw. destruct (verify_api_key settings x_api_key) as [error|] eqn:Hkey.
- erewrite handle_message_refused by done. cbn [snd]. apply drop_all.
- rewrite handle_message_trace by done. apply drop_app_length.
Qed.

Lemma engaged_events_not_scoring env request session :
  Forall (λ e, ¬ is_scoring e) (engaged_events settings env request session).
Proof.
unfold engaged_events, callback_events, max_turns_events.
assert (Hdelivery : ∀ payload, Forall (λ e, ¬ is_scoring e) [Delivered payload])
  by (intros payload; apply Forall_singleton; cbn; tauto).
apply Forall_app. split; [apply Forall_singleton; cbn; tauto|].
apply Forall_app. split.
- destruct (should_send_callback _ _); [apply Hdelivery | apply Forall_nil_2].
- destruct (bool_decide _); [|apply Forall_nil_2].
  destruct (_ && _); [apply Hdelivery | apply Forall_nil_2].
Qed.

(** A request to a live session that is already flagged goes past the
    scorer. *)
Lemma confirmed_turn env request w session :
  sessions w !! request_sessionId request = Some session →
  ¬ expired settings (clock_lookup env) session →
  scamDetected session = true →
  scamDetected (turn_session settings env request w) = true
  ∧ createdAt (turn_session settings env request w) = createdAt session
  ∧ Forall (λ e, ¬ is_scoring e) (turn_events settings env request w).
Proof.
intros Hs Hlive Hflag.
destruct (turn_session_grows settings env request w) as (Hcreated & Hkeep & _).
rewrite (current_session_live settings env _ w session) in Hcreated, Hkeep by done.
split; [by apply Hkeep|]. split; [done|].
unfold turn_events, arrived; cbv zeta.
rewrite (current_session_live settings env _ w session) by done.
destruct (after_scoring_keeps_flag env request
            (with_message (message request) session) Hflag) as [-> ->].
change (scamDetected (with_message (message request) session))
  with (scamDetected session).
rewrite Hflag. cbn [negb app]. apply engaged_events_not_scoring.
Qed.

(** C8. Once a session is flagged it stays flagged, and as long as it is
    live no request addressed to it reaches the scam scorer: the events of
    such a request contain neither the scorer's entry nor a classifier
    call, whatever the message says. *)
Theorem confirmed_session_is_never_rescored
    (requests : list (Env * HoneypotRequest * option string))
    (w : World) (id : string) (session : SessionData) :
  well_keyed w →
  sessions w !! id = Some session →
  scamDetected session = true →
  Forall (λ '(env, request, _),
            request_sessionId request = id →
            ¬ expired settings (clock_lookup env) session) requests →
  (∃ session', sessions (serve settings requests w).2 !! id = Some session'
               ∧ scamDetected session' = true
               ∧ createdAt session' = createdAt session)
  ∧ Forall2 (λ '(_, request, _) '(_, events),
               request_sessionId request = id →
               Forall (λ e, ¬ is_scoring e) events)
      requests (serve settings requests w).1.
Proof.
revert w session.
induction requests as [|[[env request] x_api_key] rest IH];
  intros w session Hw Hs Hflag Hlive.
- split; [by exists session | constructor].
- apply Forall_cons in Hlive as [Hnow Hlater].
  rewrite serve_cons. cbv zeta. cbn [fst snd].
  set (w1 := (handle_message settings env request x_api_key w).2).
  assert (Hw1 : well_keyed w1) by by apply handle_message_well_keyed.
  assert (Hstep : ∃ session1, sessions w1 !! id = Some session1
            ∧ scamDetected session1 = true
            ∧ createdAt session1 = createdAt session
            ∧ (request_sessionId request = id →
               Forall (λ e, ¬ is_scoring e)
                 (drop (length (trace w)) (trace w1)))).
  { unfold w1. rewrite handle_message_events by done.
    destruct (verify_api_key settings x_api_key) as [error|] eqn:Hkey.
    - erewrite handle_message_refused by done. cbn [snd].
      exists session. by repeat split.
    - destruct (decide (id = request_sessionId request)) as [->|Hother].
      + rewrite handle_message_own_session by done.
        destruct (confirmed_turn env request w session Hs (Hnow eq_refl) Hflag)
          as (Hflag1 & Hcreated1 & Hevents).
        eexists. by repeat split.
      + rewrite handle_message_other_session by done.
        exists session. by repeat split. }
  destruct Hstep as (session1 & Hs1 & Hflag1 & Hcreated1 & Hevents).
  assert (Hlive1 : Forall (λ '(env, request, _),
            request_sessionId request = id →
            ¬ expired settings (clock_lookup env) session1) rest).
  { eapply Forall_impl; [exact Hlater|].
    intros [[env' request'] key'] Himp Hid. unfold expired.
    rewrite Hcreated1. by apply Himp. }
  destruct (IH w1 session1 Hw1 Hs1 Hflag1 Hlive1)
    as ((session' & Hs' & Hflag' & Hcreated') & Hrest).
  split.
  + exists session'. repeat split; try done. congruence.
  + by constructor.
Qed.

(** While a session is live it keeps every value of its intelligence,
    whatever requests are served. *)
Lemma live_session_keeps_intelligence
    (requests : list (Env * HoneypotRequest * option string))
    (w : World) (id : string) (session : SessionData) :
  well_keyed w →
  sessions w !! id = Some session →
  Forall (λ '(env, request, _),
            request_sessionId request = id →
            ¬ expired settings (clock_lookup env) session) requests →
  ∃ session', sessions (serve settings requests w).2 !! id = Some session'
              ∧ createdAt session' = createdAt session
              ∧ intelligence_included (extractedIntelligence session)
                  (extractedIntelligence session').
Proof.
revert w session.
induction requests as [|[[env request] x_api_key] rest IH];
  intros w session Hw Hs Hlive.
- exists session. split; [done|]. split; [done|].
  apply intelligence_included_refl.
- apply Forall_cons in Hlive as [Hnow Hlater].
  rewrite serve_cons. cbv zeta. cbn [fst snd].
  set (w1 := (handle_message settings env request x_api_key w).2).
  assert (Hw1 : well_keyed w1) by by apply handle_message_well_keyed.
  assert (Hstep : ∃ session1, sessions w1 !! id = Some session1
            ∧ createdAt session1 = createdAt session
            ∧ intelligence_included (extractedIntelligence session)
                (extractedIntelligence session1)).
  { unfold w1.
    destruct (verify_api_key settings x_api_key) as [error|] eqn:Hkey.
    - erewrite handle_message_refused by done. cbn [snd].
      exists session. split; [done|]. split; [done|].
      apply intelligence_included_refl.
    - destruct (decide (id = request_sessionId request)) as [->|Hother].
      + rewrite handle_message_own_session by done.
        destruct (turn_session_grows settings env request w)
          as (Hcreated & _ & Hincl).
        rewrite (current_session_live settings env _ w session)
          in Hcreated, Hincl by auto.
        eexists. split; [done|]. split; [exact Hcreated | exact Hincl].
      + rewrite handle_message_other_session by done.
        exists session. split; [done|]. split; [done|].
        apply intelligence_included_refl. }
  destruct Hstep as (session1 & Hs1 & Hcreated1 & Hincl1).
  assert (Hlive1 : Forall (λ '(env, request, _),
            request_sessionId request = id →
            ¬ expired settings (clock_lookup env) session1) rest).
  { eapply Forall_impl; [exact Hlater|].
    intros [[env' request'] key'] Himp Hid. unfold expired.
    rewrite Hcreated1. by apply Himp. }
  destruct (IH w1 session1 Hw1 Hs1 Hlive1) as (session' & Hs' & Hcreated' & Hincl').
  exists session'. split; [done|]. split; [congruence|].
  by eapply intelligence_included_trans.
Qed.
End serving.

(** ** Concrete conversations *)

Definition scam_request : HoneypotRequest := request_to "a" urgent_text.

(** The table after the scam message of [scam_request] was served at
    time 0. *)
Definition flagged_world : World :=
  (handle_message default_settings (quiet_env 0) scam_request valid_key
     empty_world).2.

Definition flagged_session : SessionData :=
  turn_session default_settings (quiet_env 0) scam_request empty_world.

Example flagged_session_summary :
  sessions flagged_world !! "a" = Some flagged_session
  ∧ scamDetected flagged_session = true
  ∧ totalMessages flagged_session = 2
  ∧ stage flagged_session = "trust"
  ∧ agentNotes flagged_session = ""
  ∧ trace flagged_world
    = [Scored urgent_text;
       Generated {| prompt_current_message := urgent_text; prompt_history := [];
                    prompt_stage := "trust"; prompt_memory := ∅ |}].
Proof. vm_compute. done. Qed.

(** The stage engine as the specification words it: over the message count and the
    accumulated intelligence of the session. *)
Definition stage_by_spec (message_count : Z) (intel : ExtractedIntelligence)
    : string :=
  if bool_decide (message_count ≤ 2) then "trust"
  else if bool_decide (message_count ≤ 6)
          || bool_decide (upiIds intel = [] ∧ phishingLinks intel = []
                          ∧ bankAccounts intel = [])
  then "extract"
  else "stall".

Definition link_text : string := "URGENT: share your OTP at http://x.co/pay".

(** Five messages to one session: the first and the fourth carry a link,
    the others carry nothing. *)
Definition five_turns : list (Env * HoneypotRequest * option string) :=
  [ (quiet_env 0, request_to "a" link_text, valid_key);
    (quiet_env 1000000, request_to "a" "hello", valid_key);
    (quiet_env 2000000, request_to "a" "are you there", valid_key);
    (quiet_env 3000000, request_to "a" "pay at http://x.co/pay now", valid_key);
    (quiet_env 4000000, request_to "a" "please reply", valid_key) ].

(** The session [a] once the first [n] requests of [five_turns] are served. *)
Definition after_turns (n : nat) : option SessionData :=
  sessions (serve default_settings (take n five_turns) empty_world).2 !! "a".

(** C2, evaluated. All five turns are engaged and the session holds the
    link from the first turn on. The stored stage goes [trust], [extract],
    [extract], [stall] and back to [extract]: at the fifth message the
    count is 9 (10 with the reply) and the link is still held, so the rule
    over the accumulated intelligence says [stall], as it did one turn
    before; the handler gives the stage engine the extraction of the fifth
    message alone, which is empty. *)
Theorem stage_falls_back_while_link_is_held :
  (λ n, scamDetected <$> after_turns n) <$> [1; 2; 3; 4; 5]%nat
    = [Some true; Some true; Some true; Some true; Some true]
  ∧ (λ n, totalMessages <$> after_turns n) <$> [1; 2; 3; 4; 5]%nat
    = [Some 2; Some 4; Some 6; Some 8; Some 10]
  ∧ (λ n, (λ session, phishingLinks (extractedIntelligence session))
            <$> after_turns n) <$> [1; 2; 3; 4; 5]%nat
    = [Some ["http://x.co/pay"]; Some ["http://x.co/pay"];
       Some ["http://x.co/pay"]; Some ["http://x.co/pay"];
       Some ["http://x.co/pay"]]
  ∧ (λ n, stage <$> after_turns n) <$> [1; 2; 3; 4; 5]%nat
    = [Some "trust"; Some "extract"; Some "extract"; Some "stall";
       Some "extract"]
  ∧ (λ n, (λ session, stage_by_spec (totalMessages session - 1)
                        (extractedIntelligence session))
            <$> after_turns n) <$> [1; 2; 3; 4; 5]%nat
    = [Some "trust"; Some "extract"; Some "extract"; Some "stall";
       Some "stall"]
  ∧ (λ n, (λ session, stage_by_spec (totalMessages session)
                        (extractedIntelligence session))
            <$> after_turns n) <$> [4; 5]%nat
    = [Some "stall"; Some "stall"].
Proof. vm_compute. done. Qed.

(** The table after the message with the link was served at time 0, and
    the session it holds. *)
Definition linked_world : World :=
  (handle_message default_settings (quiet_env 0) (request_to "a" link_text)
     valid_key empty_world).2.

Definition linked_session : SessionData :=
  turn_session default_settings (quiet_env 0) (request_to "a" link_text)
    empty_world.

(** A second message to that session, with a phone number, an account
    number and an e-mail address, and the session it leaves. *)
Definition details_request : HoneypotRequest :=
  request_to "a"
    "Send 500 to 9876543210, account 123456789012, or write to bob@example.com".

Definition detailed_session : SessionData :=
  turn_session default_settings (quiet_env 1000000) details_request
    linked_world.

Example details_request_summary :
  extractedIntelligence linked_session
    = {| bankAccounts := []; upiIds := [];
         phishingLinks := ["http://x.co/pay"]; phoneNumbers := [];
         suspiciousKeywords := ["otp"; "urgent"] |}
  ∧ (λ category,
       get_list (extract_entities (text (message details_request))) category)
      <$> ["upi_ids"; "urls"; "phone_numbers"; "bank_accounts"; "emails"]
    = [ ["bob@example"]; []; ["9876543210"]; ["123456789012"];
        ["bob@example.com"] ]
  ∧ extractedIntelligence detailed_session
    = {| bankAccounts := ["123456789012"]; upiIds := ["bob@example"];
         phishingLinks := ["http://x.co/pay"]; phoneNumbers := ["9876543210"];
         suspiciousKeywords := ["otp"; "urgent"] |}.
Proof. vm_compute. done. Qed.

Lemma engaged_turn_intelligence_witness :
  (well_keyed linked_world
   ∧ verify_api_key default_settings valid_key = None
   ∧ sessions (handle_message default_settings (quiet_env 1000000)
                 details_request valid_key linked_world).2
       !! request_sessionId details_request
     = Some detailed_session
   ∧ scamDetected detailed_session = true
   ∧ sessions linked_world !! request_sessionId details_request
     = Some linked_session
   ∧ ¬ expired default_settings (clock_lookup (quiet_env 1000000))
         linked_session)
  ∧ ((∀ x, x ∈ upiIds (extractedIntelligence detailed_session) ↔
           x ∈ upiIds (extractedIntelligence
                 (current_session default_settings (quiet_env 1000000)
                    (request_sessionId details_request) linked_world))
           ∨ x ∈ get_list (extract_entities (text (message details_request)))
                   "upi_ids")
     ∧ (∀ x, x ∈ phishingLinks (extractedIntelligence detailed_session) ↔
             x ∈ phishingLinks (extractedIntelligence
                   (current_session default_settings (quiet_env 1000000)
                      (request_sessionId details_request) linked_world))
             ∨ x ∈ get_list (extract_entities (text (message details_request)))
                     "urls")
     ∧ (∀ x, x ∈ phoneNumbers (extractedIntelligence detailed_session) ↔
             x ∈ phoneNumbers (extractedIntelligence
                   (current_session default_settings (quiet_env 1000000)
                      (request_sessionId details_request) linked_world))
             ∨ x ∈ get_list (extract_entities (text (message details_request)))
                     "phone_numbers")
     ∧ (∀ x, x ∈ bankAccounts (extractedIntelligence detailed_session) ↔
             x ∈ bankAccounts (extractedIntelligence
                   (current_session default_settings (quiet_env 1000000)
                      (request_sessionId details_request) linked_world))
             ∨ x ∈ get_list (extract_entities (text (message details_request)))
                     "bank_accounts")
     ∧ (∀ x, x ∈ suspiciousKeywords (extractedIntelligence detailed_session) ↔
             x ∈ suspiciousKeywords (extractedIntelligence
                   (current_session default_settings (quiet_env 1000000)
                      (request_sessionId details_request) linked_world))
             ∨ (scamDetected
                  (current_session default_settings (quiet_env 1000000)
                     (request_sessionId details_request) linked_world) = false
                ∧ 6 ≤ score (heuristic_scam_score (text (message details_request)))
                ∧ x ∈ matched_keywords
                        (heuristic_scam_score (text (message details_request)))))
     ∧ (∀ x, x ∈ held (extractedIntelligence detailed_session) →
             x ∈ held (extractedIntelligence
                   (current_session default_settings (quiet_env 1000000)
                      (request_sessionId details_request) linked_world))
             ∨ x ∈ get_list (extract_entities (text (message details_request)))
                     "upi_ids"
             ∨ x ∈ get_list (extract_entities (text (message details_request)))
                     "urls"
             ∨ x ∈ get_list (extract_entities (text (message details_request)))
                     "phone_numbers"
             ∨ x ∈ get_list (extract_entities (text (message details_request)))
                     "bank_accounts"
             ∨ x ∈ matched_keywords
                     (heuristic_scam_score (text (message details_request)))))
  ∧ intelligence_included (extractedIntelligence linked_session)
      (extractedIntelligence detailed_session).
Proof.
assert (Hw : well_keyed linked_world)
  by apply handle_message_well_keyed, well_keyed_empty.
assert (Hkey : verify_api_key default_settings valid_key = None)
  by reflexivity.
assert (Hs' : sessions (handle_message default_settings (quiet_env 1000000)
                          details_request valid_key linked_world).2
                !! request_sessionId details_request
              = Some detailed_session)
  by (vm_compute; reflexivity).
assert (Hflag : scamDetected detailed_session = true)
  by (vm_compute; reflexivity).
assert (Hs : sessions linked_world !! request_sessionId details_request
             = Some linked_session)
  by (vm_compute; reflexivity).
assert (Hlive : ¬ expired default_settings (clock_lookup (quiet_env 1000000))
                    linked_session)
  by (unfold expired; vm_compute; discriminate).
destruct (engaged_turn_intelligence default_settings (quiet_env 1000000)
            details_request valid_key linked_world detailed_session
            Hw Hkey Hs') as [Hunion Hkeep].
exact (conj (conj Hw (conj Hkey (conj Hs' (conj Hflag (conj Hs Hlive)))))
         (conj (Hunion Hflag) (Hkeep linked_session Hs Hlive))).
Defined.

Definition mail_text : string :=
  "Send the OTP to verify your account, or mail bob@example.com".

(** C3, counterexample. The extractor yields an e-mail address from the
    message of an engaged turn, and no category of the session's
    intelligence holds it afterwards. *)
Lemma email_is_not_accumulated :
  ∃ session,
    sessions (handle_message default_settings (quiet_env 0)
                (request_to "a" mail_text) valid_key empty_world).2 !! "a"
      = Some session
    ∧ scamDetected session = true
    ∧ get_list (extract_entities mail_text) "emails" = ["bob@example.com"]
    ∧ extractedIntelligence session
      = {| bankAccounts := []; upiIds := ["bob@example"]; phishingLinks := [];
           phoneNumbers := [];
           suspiciousKeywords := ["otp"; "verify your account"] |}
    ∧ "bob@example.com"
      ∉ bankAccounts (extractedIntelligence session)
        ++ upiIds (extractedIntelligence session)
        ++ phishingLinks (extractedIntelligence session)
        ++ phoneNumbers (extractedIntelligence session)
        ++ suspiciousKeywords (extractedIntelligence session).
Proof.
eexists. split; [vm_compute; reflexivity|].
repeat split; try (vm_compute; reflexivity).
apply (bool_decide_unpack _). vm_compute. exact I.
Qed.

(** Three messages to one session, the first of them a scam. *)
Definition three_turns : list (Env * HoneypotRequest * option string) :=
  [ (quiet_env 0, scam_request, valid_key);
    (quiet_env 1000000, request_to "a" "hello", valid_key);
    (quiet_env 2000000, request_to "a" "are you there", valid_key) ].

(** The reports posted among the events of a request. *)
Definition deliveries (events : list Event) : list FinalResultPayload :=
  omap (λ e, match e with Delivered payload => Some payload | _ => None end)
    events.

(** C1, evaluated. The second and the third request each post a report
    for the same session, although the notes were already written when the
    third request came. *)
Theorem report_is_delivered_on_two_turns :
  (λ answer, totalMessagesExchanged <$> deliveries answer.2)
    <$> (serve default_settings three_turns empty_world).1
  = [[]; [4]; [6]]
  ∧ agentNotes
      <$> sessions (serve default_settings (take 2 three_turns) empty_world).2
          !! "a"
    = Some "Used tactics: otp, verify immediately, urgent, immediately, account will be blocked."
  ∧ (λ answer, payload_sessionId <$> deliveries answer.2)
      <$> (serve default_settings three_turns empty_world).1
    = [[]; ["a"]; ["a"]].
Proof. vm_compute. done. Qed.

Definition later_requests : list (Env * HoneypotRequest * option string) :=
  [ (quiet_env 1000000, request_to "a" "Share your OTP and CVV now", valid_key);
    (quiet_env 2000000, request_to "b" "Share your OTP and CVV now", valid_key);
    (quiet_env 3000000, request_to "a" "Hello, how are you today?", valid_key) ].

Lemma confirmed_session_is_never_rescored_witness :
  (well_keyed flagged_world
   ∧ sessions flagged_world !! "a" = Some flagged_session
   ∧ scamDetected flagged_session = true
   ∧ Forall (λ '(env, request, _),
               request_sessionId request = "a" →
               ¬ expired default_settings (clock_lookup env) flagged_session)
       later_requests)
  ∧ (∃ session',
       sessions (serve default_settings later_requests flagged_world).2 !! "a"
         = Some session'
       ∧ scamDetected session' = true
       ∧ createdAt session' = createdAt flagged_session)
    ∧ Forall2 (λ '(_, request, _) '(_, events),
                 request_sessionId request = "a" →
                 Forall (λ e, ¬ is_scoring e) events)
        later_requests (serve default_settings later_requests flagged_world).1.
Proof.
assert (Hw : well_keyed flagged_world)
  by apply handle_message_well_keyed, well_keyed_empty.
assert (Hlive : Forall (λ '(env, request, _),
               request_sessionId request = "a" →
               ¬ expired default_settings (clock_lookup env) flagged_session)
       later_requests).
{ repeat constructor; intros _; unfold expired; vm_compute; discriminate. }
split.
- split; [exact Hw|]. split; [vm_compute; reflexivity|].
  split; [vm_compute; reflexivity | exact Hlive].
- apply (confirmed_session_is_never_rescored default_settings later_requests
           flagged_world "a" flagged_session).
  + exact Hw.
  + vm_compute. reflexivity.
  + vm_compute. reflexivity.
  + exact Hlive.
Defined.

(** The request to the other session, which is new, does reach the scorer. *)
Example other_session_is_scored :
  (λ answer, answer.2 !! 0%nat)
    <$> (serve default_settings later_requests flagged_world).1
  = [ Some (Generated (turn_prompt (request_to "a" "Share your OTP and CVV now")
              (staged (request_to "a" "Share your OTP and CVV now")
                 (with_message (message (request_to "a" "Share your OTP and CVV now"))
                    flagged_session))));
      Some (Scored "Share your OTP and CVV now");
      Some (Generated (turn_prompt (request_to "a" "Hello, how are you today?")
              (staged (request_to "a" "Hello, how are you today?")
                 (with_message (message (request_to "a" "Hello, how are you today?"))
                    (turn_session default_settings (quiet_env 1000000)
                       (request_to "a" "Share your OTP and CVV now")
                       flagged_world))))) ].
Proof. vm_compute. reflexivity. Qed.

(** * Further properties of the services *)

(** ** What a match looks like *)

Section matcher.
Import Text.

(** The characters a match of [p] consists of: one run per repetition,
    within its bounds and inside its class. *)
Fixpoint shaped (p : pattern) (cs : list ascii) : Prop :=
  match p with
  | [] => cs = []
  | Bnd :: p' => shaped p' cs
  | Rep cls lo hi :: p' =>
      ∃ run rest, cs = run ++ rest
        ∧ (lo ≤ length run)%nat
        ∧ (∀ h, hi = Some h → (length run ≤ h)%nat)
        ∧ Forall (λ c, cls c = true) run
        ∧ shaped p' rest
  end.

Abbreviation chars := list_ascii_of_string.

Lemma rep_sound (Q : string → nat → Prop) cls k :
  (∀ prev s n, k prev s = Some n → Q s n) →
  ∀ s lo hi prev n,
    rep cls lo hi k prev s = Some n →
    ∃ run s' n', chars s = run ++ chars s'
      ∧ n = (length run + n')%nat
      ∧ (lo ≤ length run)%nat
      ∧ (∀ h, hi = Some h → (length run ≤ h)%nat)
      ∧ Forall (λ c, cls c = true) run
      ∧ Q s' n'.
Proof.
intros Hk.
assert (Hstop : ∀ s lo hi prev n, stop_here lo k prev s = Some n →
  ∃ run s' n', chars s = run ++ chars s' ∧ n = (length run + n')%nat
    ∧ (lo ≤ length run)%nat ∧ (∀ h, hi = Some h → (length run ≤ h)%nat)
    ∧ Forall (λ c, cls c = true) run ∧ Q s' n').
{ intros s lo hi prev n Hs. destruct lo as [|lo]; [|discriminate].
  exists [], s, n. cbn. repeat split; eauto using Forall_nil_2 with lia. }
induction s as [|a s IH]; intros lo hi prev n Hrep; cbn [rep] in Hrep.
- by eapply Hstop.
- destruct (cls a && negb (bool_decide (hi = Some O))) eqn:Hgo;
    [|by eapply Hstop].
  destruct (rep cls (pred lo) (pred <$> hi) k (Some a) s) as [n1|] eqn:Hrec;
    [|by eapply Hstop].
  injection Hrep as <-.
  apply andb_true_iff in Hgo as [Ha Hhi].
  apply negb_true_iff, bool_decide_eq_false in Hhi.
  destruct (IH _ _ _ _ Hrec) as (run & s' & n' & Hcs & -> & Hlo & Hmax & Hrun & HQ).
  exists (a :: run), s', n'. cbn. rewrite Hcs.
  split; [done|]. split; [done|]. split; [lia|]. split.
  + intros h ->. destruct h as [|h]; [done|].
    specialize (Hmax h eq_refl). lia.
  + split; [by constructor | done].
Qed.

Lemma match_here_sound p : ∀ prev s n,
  match_here p prev s = Some n →
  ∃ cs tail, chars s = cs ++ tail ∧ length cs = n ∧ shaped p cs.
Proof.
induction p as [|[|cls lo hi] p IH]; intros prev s n Hm; cbn [match_here] in Hm.
- injection Hm as <-. by exists [], (chars s).
- destruct (at_boundary prev s); [|discriminate]. by apply IH in Hm.
- apply (rep_sound (λ s n, ∃ cs tail, chars s = cs ++ tail ∧ length cs = n
                             ∧ shaped p cs)) in Hm; [|exact IH].
  destruct Hm as (run & s' & n' & Hcs & -> & Hlo & Hmax & Hrun & cs & tail
                  & Hs' & <- & Hshape).
  exists (run ++ cs), tail. rewrite Hcs, Hs', (assoc_L (++)).
  split; [done|]. split; [by rewrite length_app|].
  cbn [shaped]. by exists run, cs.
Qed.

Lemma chars_substring n s : chars (substring 0 n s) = take n (chars s).
Proof.
revert s. induction n as [|n IH]; intros [|a s]; cbn; try done.
by rewrite IH.
Qed.

Lemma findall_from_matches p : ∀ s skip prev x,
  x ∈ findall_from p skip prev s →
  ∃ prev' s' n, match_here p prev' s' = Some n ∧ x = substring 0 n s'.
Proof.
induction s as [|a s IH]; intros skip prev x Hx.
- destruct skip as [|skip]; cbn [findall_from] in Hx.
  + destruct (match_here p prev "") as [n|] eqn:Hm.
    * apply list_elem_of_singleton in Hx. eauto.
    * by apply elem_of_nil in Hx.
  + by apply elem_of_nil in Hx.
- destruct skip as [|skip]; cbn [findall_from] in Hx.
  + destruct (match_here p prev (String a s)) as [n|] eqn:Hm.
    * apply elem_of_cons in Hx as [->|Hx]; eauto.
    * eauto.
  + eauto.
Qed.

(** Every string that [re.findall] returns has the shape of the pattern. *)
Lemma findall_shaped p s x : x ∈ findall p s → shaped p (chars x).
Proof.
intros Hx. apply findall_from_matches in Hx as (prev & s' & n & Hm & ->).
apply match_here_sound in Hm as (cs & tail & Hs' & <- & Hshape).
by rewrite chars_substring, Hs', take_app_length.
Qed.

Lemma length_chars s : length (chars s) = String.length s.
Proof. induction s as [|a s IH]; cbn; by rewrite ?IH. Qed.
End matcher.

(** ** The shape of what the extractor returns *)

Section extractor_shapes.
Context `{PySet}.
Import Text.

Lemma extract_entities_lookups text :
  let found p := if bool_decide (text = "") then [] else set_list (findall p text) in
  get_list (extract_entities text) "upi_ids" = found UPI_REGEX
  ∧ get_list (extract_entities text) "urls" = found URL_REGEX
  ∧ get_list (extract_entities text) "ifsc_codes" = found IFSC_REGEX
  ∧ get_list (extract_entities text) "phone_numbers" = found PHONE_REGEX
  ∧ get_list (extract_entities text) "emails" = found EMAIL_REGEX.
Proof.
cbv zeta. unfold extract_entities. case_bool_decide; cbv zeta.
- pose proof (entities_lookups [] [] [] [] [] []). tauto.
- match goal with |- context [entities ?u ?l ?i ?p ?b ?e] =>
    pose proof (entities_lookups u l i p b e) end.
  tauto.
Qed.

Lemma found_in_findall p text x :
  x ∈ (if bool_decide (text = "") then [] else set_list (findall p text)) →
  x ∈ findall p text.
Proof.
case_bool_decide; intros Hx; [by apply elem_of_nil in Hx|].
by apply (proj1 (set_list_elem _ _)) in Hx.
Qed.

Lemma shaped_chr c p cs :
  shaped (chr c :: p) cs → ∃ rest, cs = c :: rest ∧ shaped p rest.
Proof.
intros (run & rest & -> & Hlo & Hhi & Hrun & Hrest).
specialize (Hhi 1%nat eq_refl).
destruct run as [|a [|b run]]; cbn in Hlo, Hhi; try lia.
apply Forall_inv in Hrun. apply Ascii.eqb_eq in Hrun as ->.
by exists rest.
Qed.

Lemma shaped_optional c p cs :
  shaped (optional c :: p) cs →
  shaped p cs ∨ ∃ rest, cs = c :: rest ∧ shaped p rest.
Proof.
intros (run & rest & -> & _ & Hhi & Hrun & Hrest).
specialize (Hhi 1%nat eq_refl).
destruct run as [|a [|b run]]; cbn in Hhi; try lia.
- by left.
- apply Forall_inv in Hrun. apply Ascii.eqb_eq in Hrun as ->.
  right. by exists rest.
Qed.

Lemma shaped_last cls lo hi cs :
  shaped [Rep cls lo hi] cs →
  (lo ≤ length cs)%nat ∧ (∀ h, hi = Some h → (length cs ≤ h)%nat)
  ∧ Forall (λ c, cls c = true) cs.
Proof.
intros (run & rest & -> & Hlo & Hhi & Hrun & Hrest).
cbn in Hrest. subst rest. rewrite (right_id_L [] (++)). auto.
Qed.

Lemma six_to_nine_is_digit c : between "6" "9" c = true → is_digit c = true.
Proof.
unfold is_digit, between. rewrite !andb_true_iff, !N.leb_le.
change (code "6") with 54%N. change (code "0") with 48%N. lia.
Qed.

(** X1. In a text of ASCII characters every phone number the extractor
    returns is a run of exactly ten digits whose first digit is 6, 7, 8 or
    9. (In other texts Python's [\d] also matches the digits of other
    scripts.) *)
Theorem phone_numbers_are_ten_digits (text x : string) :
  ascii_text text = true →
  x ∈ get_list (extract_entities text) "phone_numbers" →
  String.length x = 10%nat
  ∧ Forall (λ c, is_digit c = true) (list_ascii_of_string x)
  ∧ ∃ c, list_ascii_of_string x !! 0%nat = Some c ∧ between "6" "9" c = true.
Proof.
intros _ Hx.
destruct (extract_entities_lookups text) as (_ & _ & _ & Heq & _).
rewrite Heq in Hx. apply found_in_findall, findall_shaped in Hx.
rewrite <- length_chars. generalize dependent (list_ascii_of_string x).
intros cs Hcs. unfold PHONE_REGEX in Hcs. cbn [shaped] in Hcs.
destruct Hcs as (first & rest & -> & Hlo & Hhi & Hfirst & Hrest).
specialize (Hhi 1%nat eq_refl).
destruct first as [|c [|c' first]]; cbn in Hlo, Hhi; try lia.
apply Forall_inv in Hfirst.
destruct Hrest as (digits & rest' & -> & Hlo' & Hhi' & Hdigits & ->).
specialize (Hhi' 9%nat eq_refl). rewrite (right_id_L [] (++)).
split; [cbn; lia|]. split.
- constructor; [by apply six_to_nine_is_digit | done].
- by exists c.
Qed.

(** X2. In a text of ASCII characters every account number the extractor
    returns is a run of nine to eighteen digits. (In other texts Python's
    [\d] also matches the digits of other scripts.) *)
Theorem bank_accounts_are_digit_runs (text x : string) :
  ascii_text text = true →
  x ∈ get_list (extract_entities text) "bank_accounts" →
  (9 ≤ String.length x ≤ 18)%nat
  ∧ Forall (λ c, is_digit c = true) (list_ascii_of_string x).
Proof.
intros _ Hx. rewrite extract_entities_bank_accounts in Hx.
case_bool_decide; [by apply elem_of_nil in Hx|].
apply set_list_elem, list_elem_of_filter in Hx as [_ Hx].
apply findall_shaped in Hx.
rewrite <- length_chars. generalize dependent (list_ascii_of_string x).
intros cs Hcs. unfold BANK_ACCOUNT_REGEX in Hcs. cbn [shaped] in Hcs.
apply shaped_last in Hcs as (Hlo & Hhi & Hdigits).
specialize (Hhi 18%nat eq_refl). by repeat split.
Qed.

(** X3. Every URL the extractor returns starts with [http://] or
    [https://], goes on for at least one character, and holds no
    whitespace. *)
Theorem urls_have_a_scheme (text x : string) :
  x ∈ get_list (extract_entities text) "urls" →
  ∃ rest, rest ≠ []
    ∧ (list_ascii_of_string x = list_ascii_of_string "http://" ++ rest
       ∨ list_ascii_of_string x = list_ascii_of_string "https://" ++ rest)
    ∧ Forall (λ c, is_space c = false) (list_ascii_of_string x).
Proof.
intros Hx.
destruct (extract_entities_lookups text) as (_ & Heq & _).
rewrite Heq in Hx. apply found_in_findall, findall_shaped in Hx.
generalize dependent (list_ascii_of_string x). intros cs Hcs.
change URL_REGEX with
  (chr "h" :: chr "t" :: chr "t" :: chr "p" :: optional "s" :: chr ":"
   :: chr "/" :: chr "/" :: [at_least 1 (λ c, negb (is_space c))])%char in Hcs.
apply shaped_chr in Hcs as (cs1 & -> & Hcs).
apply shaped_chr in Hcs as (cs2 & -> & Hcs).
apply shaped_chr in Hcs as (cs3 & -> & Hcs).
apply shaped_chr in Hcs as (cs4 & -> & Hcs).
assert (Htail : ∀ cs, shaped (chr ":" :: chr "/" :: chr "/"
          :: [at_least 1 (λ c, negb (is_space c))])%char cs →
        ∃ rest, rest ≠ [] ∧ cs = list_ascii_of_string "://" ++ rest
          ∧ Forall (λ c, is_space c = false) rest).
{ clear. intros cs Hcs.
  apply shaped_chr in Hcs as (cs1 & -> & Hcs).
  apply shaped_chr in Hcs as (cs2 & -> & Hcs).
  apply shaped_chr in Hcs as (cs3 & -> & Hcs).
  apply shaped_last in Hcs as (Hlo & _ & Hrest).
  exists cs3. split; [by destruct cs3; cbn in Hlo; [lia|]|]. split; [done|].
  eapply Forall_impl; [exact Hrest|]. intros c. by apply negb_true_iff. }
apply shaped_optional in Hcs as [Hcs | (cs5 & -> & Hcs)];
  apply Htail in Hcs as (rest & Hne & -> & Hrest); exists rest.
- split; [done|]. split; [by left|].
  repeat (constructor; [reflexivity|]). done.
- split; [done|]. split; [by right|].
  repeat (constructor; [reflexivity|]). done.
Qed.

(** X4. Whatever the text, the extractor answers with the same six
    categories, and no category lists a value twice. *)
Theorem extract_entities_categories (text : string) :
  dom (extract_entities text)
    = {[ "upi_ids"; "urls"; "ifsc_codes"; "phone_numbers"; "bank_accounts";
         "emails" ]}
  ∧ ∀ category, NoDup (get_list (extract_entities text) category).
Proof.
split.
- unfold extract_entities. case_bool_decide; cbv zeta; unfold entities;
    rewrite !dom_insert_L, dom_empty_L; set_solver.
- intros category. unfold get_list.
  destruct (extract_entities text !! category) as [l|] eqn:Hl;
    [|apply NoDup_nil_2].
  cbn. revert Hl. unfold extract_entities.
  case_bool_decide; cbv zeta; unfold entities; intros Hl;
    repeat (apply lookup_insert_Some in Hl as [[_ <-]|[_ Hl]];
            [first [apply NoDup_nil_2 | apply set_list_NoDup]|]);
    by rewrite lookup_empty in Hl.
Qed.
End extractor_shapes.

Lemma phone_numbers_are_ten_digits_witness :
  (Text.ascii_text "call 9876543210 today" = true
   ∧ "9876543210"
       ∈ get_list (extract_entities "call 9876543210 today") "phone_numbers")
  ∧ String.length "9876543210" = 10%nat
  ∧ Forall (λ c, Text.is_digit c = true) (list_ascii_of_string "9876543210")
  ∧ ∃ c, list_ascii_of_string "9876543210" !! 0%nat = Some c
         ∧ Text.between "6" "9" c = true.
Proof.
split.
- split; [reflexivity|]. apply (bool_decide_unpack _). vm_compute. exact I.
- apply (phone_numbers_are_ten_digits "call 9876543210 today" "9876543210").
  + reflexivity.
  + apply (bool_decide_unpack _). vm_compute. exact I.
Defined.

Lemma bank_accounts_are_digit_runs_witness :
  (Text.ascii_text "pay to account 123456789012" = true
   ∧ "123456789012"
       ∈ get_list (extract_entities "pay to account 123456789012")
           "bank_accounts")
  ∧ (9 ≤ String.length "123456789012" ≤ 18)%nat
  ∧ Forall (λ c, Text.is_digit c = true) (list_ascii_of_string "123456789012").
Proof.
split.
- split; [reflexivity|]. apply (bool_decide_unpack _). vm_compute. exact I.
- apply (bank_accounts_are_digit_runs "pay to account 123456789012"
           "123456789012").
  + reflexivity.
  + apply (bool_decide_unpack _). vm_compute. exact I.
Defined.

Lemma urls_have_a_scheme_witness :
  "https://x.co/pay" ∈ get_list (extract_entities "open https://x.co/pay now") "urls"
  ∧ ∃ rest, rest ≠ []
      ∧ (list_ascii_of_string "https://x.co/pay"
           = list_ascii_of_string "http://" ++ rest
         ∨ list_ascii_of_string "https://x.co/pay"
           = list_ascii_of_string "https://" ++ rest)
      ∧ Forall (λ c, Text.is_space c = false)
          (list_ascii_of_string "https://x.co/pay").
Proof.
split.
- apply (bool_decide_unpack _). vm_compute. exact I.
- apply (urls_have_a_scheme "open https://x.co/pay now" "https://x.co/pay").
  apply (bool_decide_unpack _). vm_compute. exact I.
Defined.

(** ** The keyword score *)

Section keyword_score.

(** One pass of the scoring loop over any keyword table. *)
Definition score_table (table : list (string * Z)) (lower_text : string)
    (start : Heuristic) : Heuristic :=
  foldl (λ acc '(keyword, weight),
      if Text.contains keyword lower_text
      then {| score := score acc + weight;
              matched_keywords := matched_keywords acc ++ [keyword] |}
      else acc)
    start table.

(** The entries of the table that occur in the text. *)
Definition hits (table : list (string * Z)) (lower_text : string)
    : list (string * Z) :=
  filter (λ entry, Text.contains entry.1 lower_text = true) table.

Definition total_weight (entries : list (string * Z)) : Z :=
  foldr (λ entry sum, entry.2 + sum) 0 entries.

Lemma score_table_hits table lower_text : ∀ start,
  score_table table lower_text start
  = {| score := score start + total_weight (hits table lower_text);
       matched_keywords := matched_keywords start ++ (hits table lower_text).*1 |}.
Proof.
induction table as [|[keyword weight] table IH]; intros [sc kws].
- unfold score_table, hits. rewrite filter_nil.
  cbn [foldl score matched_keywords total_weight foldr fmap list_fmap].
  f_equal; [lia | by rewrite (right_id_L [] (++))].
- unfold score_table, hits in *. cbn [foldl]. rewrite IH.
  rewrite filter_cons. cbn [fst].
  destruct (Text.contains keyword lower_text) eqn:Hhit.
  + rewrite decide_True by done. rewrite fmap_cons.
    cbn [score matched_keywords total_weight foldr fst snd].
    f_equal; [unfold total_weight; lia|]. by rewrite <- (assoc_L (++)).
  + rewrite decide_False by done. done.
Qed.

Lemma total_weight_cons keyword weight entries :
  total_weight ((keyword, weight) :: entries) = weight + total_weight entries.
Proof. reflexivity. Qed.

Lemma total_weight_hits_bounds table lower_text :
  Forall (λ entry, 0 < entry.2) table →
  0 ≤ total_weight (hits table lower_text) ≤ total_weight table
  ∧ (total_weight (hits table lower_text) = 0 ↔ hits table lower_text = []).
Proof.
intros Hpos. unfold hits.
induction Hpos as [|[keyword weight] table Hw Hpos [IHbound IHzero]].
- rewrite filter_nil. by split.
- rewrite filter_cons, total_weight_cons. cbn [fst snd] in *.
  destruct (decide (Text.contains keyword lower_text = true)).
  + rewrite total_weight_cons. split; [lia|]. split; [lia | discriminate].
  + split; [lia | exact IHzero].
Qed.

Lemma heuristic_scam_score_table text :
  heuristic_scam_score text
  = score_table SCAM_KEYWORDS (Text.lower text)
      {| score := 0; matched_keywords := [] |}.
Proof. unfold heuristic_scam_score, score_table. cbv zeta. reflexivity. Qed.

Lemma scam_keywords_weights :
  Forall (λ entry : string * Z, 0 < entry.2) SCAM_KEYWORDS
  ∧ total_weight SCAM_KEYWORDS = 151.
Proof.
split; [|vm_compute; reflexivity].
apply (bool_decide_unpack _). vm_compute. exact I.
Qed.

(** X5. The keyword score is the sum of the weights of the table entries
    that occur in the lower-cased text, and the matched keywords are those
    entries in table order; so the score lies between 0 and 151, and it is
    0 exactly when no keyword matched. *)
Theorem heuristic_scam_score_is_weight_of_hits (text : string) :
  let found := hits SCAM_KEYWORDS (Text.lower text) in
  score (heuristic_scam_score text) = total_weight found
  ∧ matched_keywords (heuristic_scam_score text) = found.*1
  ∧ 0 ≤ score (heuristic_scam_score text) ≤ 151
  ∧ (score (heuristic_scam_score text) = 0
     ↔ matched_keywords (heuristic_scam_score text) = []).
Proof.
cbv zeta. rewrite heuristic_scam_score_table, score_table_hits.
destruct scam_keywords_weights as [Hpos Htotal].
destruct (total_weight_hits_bounds SCAM_KEYWORDS (Text.lower text) Hpos)
  as [Hbound Hzero].
rewrite Htotal in Hbound.
generalize dependent (hits SCAM_KEYWORDS (Text.lower text)).
intros found Hbound Hzero.
cbn [score matched_keywords app]. rewrite Z.add_0_l.
split; [done|]. split; [done|]. split; [done|]. split.
- intros Hs. apply Hzero in Hs. by rewrite Hs.
- intros Hm. apply Hzero. by apply fmap_nil_inv in Hm.
Qed.
End keyword_score.

(** ** The scorer below the threshold *)

Section borderline.

(** The context [predict_scam] hands to the classifier. *)
Definition full_context (text : string) (conversation_history : list Message)
    : string :=
  match conversation_history with
  | [] => text
  | _ =>
      join newline
        ((λ msg, sender msg +:+ ": " +:+ message_text msg)
           <$> last_n 5 conversation_history)
      +:+ newline +:+ "Current: " +:+ text
  end.

(** X6. When the keyword score is below 6 the classifier is called exactly
    once, on the context built from the history and the text. The scorer
    declares a scam exactly when the classifier's label is a string equal
    to [scam] up to letter case and its confidence is at least 0.75 (then
    by method [llm] with the classifier's confidence); a label that is not
    a string never declares one. Otherwise the method is [heuristic_low]
    when some keyword matched and [none] when none did. *)
Theorem predict_scam_borderline (env : Env) (text : string)
    (conversation_history : list Message) (w : World) :
  score (heuristic_scam_score text) < 6 →
  let llm := llm_fraud_classification env (full_context text conversation_history) in
  let result := (predict_scam env text conversation_history w).1 in
  let w' := (predict_scam env text conversation_history w).2 in
  trace w' = trace w
             ++ [Scored text; Classified (full_context text conversation_history)]
  ∧ sessions w' = sessions w
  ∧ (is_scam result = true ↔
       (∃ l, label llm = Some l ∧ Text.lower l = "scam")
       ∧ PrimFloat.leb f0_75 (llm_confidence llm) = true)
  ∧ (is_scam result = true →
       method result = "llm" ∧ confidence result = llm_confidence llm)
  ∧ (is_scam result = false →
       method result
       = if bool_decide (0 < score (heuristic_scam_score text))
         then "heuristic_low" else "none").
Proof.
intros Hlow. cbv zeta. unfold predict_scam.
fold (full_context text conversation_history).
generalize dependent (heuristic_scam_score text). intros heuristic Hlow.
generalize (llm_fraud_classification env (full_context text conversation_history)).
intros llm.
unfold mbind, M_bind, emit, mret, M_ret; cbv zeta beta.
rewrite bool_decide_eq_false_2 by lia.
set (lab := match label llm with
            | Some l => bool_decide (Text.lower l = "scam")
            | None => false
            end).
assert (Hlabel : lab = true ↔ ∃ l, label llm = Some l ∧ Text.lower l = "scam").
{ subst lab. destruct (label llm) as [l|].
  - rewrite bool_decide_eq_true.
    split; [by exists l | intros (l' & Heq & Hl'); congruence].
  - split; [discriminate | by intros (? & ? & ?)]. }
clearbody lab.
destruct lab; destruct (PrimFloat.leb f0_75 (llm_confidence llm)) eqn:Hc;
  cbn [andb]; try case_bool_decide;
  cbn [fst snd is_scam method confidence trace sessions];
  rewrite <- ?(assoc_L (++)); cbn [app];
  (split; [done|]); (split; [done|]);
  (split; [|split; [intros Hs; try discriminate Hs; by split
                   | intros Hs; try discriminate Hs; done]]);
  rewrite <- Hlabel; intuition congruence.
Qed.

Lemma last_n_last_n {A} (n : nat) (l : list A) : last_n n (last_n n l) = last_n n l.
Proof.
unfold last_n. rewrite length_drop.
replace (length l - (length l - n) - n)%nat with 0%nat by lia. done.
Qed.

Lemma last_n_nil_iff {A} (n : nat) (l : list A) :
  (0 < n)%nat → last_n n l = [] ↔ l = [].
Proof.
intros Hn. unfold last_n. split; [|by intros ->].
intros Hd. apply (f_equal length) in Hd. rewrite length_drop in Hd.
destruct l; [done|]. cbn in Hd. lia.
Qed.

(** X7. Only the last five messages of the history the caller supplies
    reach the scorer: cutting the history down to them changes neither the
    answer nor the events. *)
Theorem predict_scam_reads_last_five (env : Env) (text : string)
    (conversation_history : list Message) (w : World) :
  predict_scam env text conversation_history w
  = predict_scam env text (last_n 5 conversation_history) w.
Proof.
assert (Hctx : full_context text conversation_history
               = full_context text (last_n 5 conversation_history)).
{ unfold full_context. rewrite last_n_last_n.
  destruct conversation_history as [|m l] eqn:Hl; [done|]. rewrite <- Hl.
  destruct (last_n 5 conversation_history) eqn:Hlast; [|done].
  apply last_n_nil_iff in Hlast; [congruence | lia]. }
unfold predict_scam.
fold (full_context text conversation_history).
fold (full_context text (last_n 5 conversation_history)).
by rewrite Hctx.
Qed.
End borderline.

Lemma predict_scam_borderline_witness :
  score (heuristic_scam_score "Hello, how are you today?") < 6
  ∧ trace (predict_scam (quiet_env 0) "Hello, how are you today?" [] empty_world).2
    = trace empty_world
      ++ [Scored "Hello, how are you today?";
          Classified (full_context "Hello, how are you today?" [])].
Proof.
split.
- vm_compute. reflexivity.
- apply (predict_scam_borderline (quiet_env 0) "Hello, how are you today?" []
           empty_world).
  vm_compute. reflexivity.
Defined.

(** ** The stage engine *)

(** The stages in the order the conversation goes through them. *)
Definition stage_rank (stage : string) : nat :=
  if bool_decide (stage = "trust") then 0
  else if bool_decide (stage = "extract") then 1
  else 2.

(** X8. The stage engine answers [trust], [extract] or [stall], and its
    answer never goes back when the message count grows and every critical
    category (payment handles, URLs, accounts) that held a value still
    holds one. *)
Theorem stage_never_goes_back (m n : Z) (intel intel' : intel_dict) :
  m ≤ n →
  (∀ category, category ∈ ["upi_ids"; "urls"; "bank_accounts"] →
     get_list intel category ≠ [] → get_list intel' category ≠ []) →
  determine_conversation_stage n intel' ∈ ["trust"; "extract"; "stall"]
  ∧ (stage_rank (determine_conversation_stage m intel)
     ≤ stage_rank (determine_conversation_stage n intel'))%nat.
Proof.
intros Hmn Hgrow. unfold determine_conversation_stage; cbv zeta.
assert (Hcritical : ∀ category, category ∈ ["upi_ids"; "urls"; "bank_accounts"] →
          bool_decide (0 < length (get_list intel category))%nat = true →
          bool_decide (0 < length (get_list intel' category))%nat = true).
{ intros category Hin. rewrite !positive_length_nonempty. by apply Hgrow. }
pose proof (Hcritical "upi_ids" ltac:(set_solver)) as Hupi.
pose proof (Hcritical "urls" ltac:(set_solver)) as Hurl.
pose proof (Hcritical "bank_accounts" ltac:(set_solver)) as Hbank.
clear Hcritical Hgrow.
destruct (bool_decide (0 < length (get_list intel "upi_ids"))%nat),
  (bool_decide (0 < length (get_list intel "urls"))%nat),
  (bool_decide (0 < length (get_list intel "bank_accounts"))%nat);
  rewrite ?Hupi, ?Hurl, ?Hbank by done;
  destruct (bool_decide (0 < length (get_list intel' "upi_ids"))%nat),
    (bool_decide (0 < length (get_list intel' "urls"))%nat),
    (bool_decide (0 < length (get_list intel' "bank_accounts"))%nat);
  repeat case_bool_decide; try lia;
  (split; [set_solver | vm_compute; lia]).
Qed.

Lemma stage_never_goes_back_witness :
  (4 ≤ 8
   ∧ ∀ category, category ∈ ["upi_ids"; "urls"; "bank_accounts"] →
       get_list (∅ : intel_dict) category ≠ [] →
       get_list (entities [] ["http://x.co/pay"] [] [] [] []) category ≠ [])
  ∧ determine_conversation_stage 8 (entities [] ["http://x.co/pay"] [] [] [] [])
      ∈ ["trust"; "extract"; "stall"]
  ∧ (stage_rank (determine_conversation_stage 4 ∅)
     ≤ stage_rank (determine_conversation_stage 8
                     (entities [] ["http://x.co/pay"] [] [] [] [])))%nat.
Proof.
assert (Hgrow : ∀ category, category ∈ ["upi_ids"; "urls"; "bank_accounts"] →
       get_list (∅ : intel_dict) category ≠ [] →
       get_list (entities [] ["http://x.co/pay"] [] [] [] []) category ≠ []).
{ intros category _ Hne. by unfold get_list in Hne; rewrite lookup_empty in Hne. }
split.
- split; [lia | exact Hgrow].
- apply (stage_never_goes_back 4 8 ∅ (entities [] ["http://x.co/pay"] [] [] [] []));
    [lia | exact Hgrow].
Defined.

Example stages_by_count :
  determine_conversation_stage 1 ∅ = "trust"
  ∧ determine_conversation_stage 4 ∅ = "extract"
  ∧ determine_conversation_stage 8 ∅ = "extract"
  ∧ determine_conversation_stage 8 (entities [] ["http://x.co/pay"] [] [] [] [])
    = "stall"
  ∧ determine_conversation_stage 8 (entities [] [] [] ["9876543210"] [] ["a@b.co"])
    = "extract".
Proof. vm_compute. done. Qed.

(** ** The session table *)

Section session_table.
Context `{PySet} (settings : Settings).

(** X9. A session that was just created is found again, unchanged, by
    every lookup made no later than the timeout after its creation (the
    boundary included), and such a lookup leaves the table as it is. *)
Theorem created_session_is_found (now now' : Z) (id : string) (w : World) :
  now' - now ≤ timeout settings →
  get_session settings now' id (create_session now id w).2
  = (Some (new_session now id), (create_session now id w).2).
Proof.
intros Hage. rewrite create_session_run. cbn [snd].
apply get_session_live.
- unfold store. cbn. apply lookup_insert_eq.
- unfold expired. cbn. lia.
Qed.

Lemma delete_session_run id w :
  delete_session id w
  = (tt, {| sessions := delete id (sessions w); trace := trace w |}).
Proof.
unfold delete_session, mbind, M_bind, get_sessions, put_sessions, mret, M_ret.
case_bool_decide as Hin; [done|].
apply not_elem_of_dom in Hin. rewrite delete_id by done. by destruct w.
Qed.

(** X10. Deleting a session removes the entry of that id and nothing
    else; deleting an id that is not in the table changes nothing. *)
Theorem delete_session_removes_one (id : string) (w : World) :
  sessions (delete_session id w).2 !! id = None
  ∧ (∀ id', id' ≠ id →
       sessions (delete_session id w).2 !! id' = sessions w !! id')
  ∧ trace (delete_session id w).2 = trace w
  ∧ (sessions w !! id = None → (delete_session id w).2 = w).
Proof.
rewrite delete_session_run. cbn [snd sessions trace].
split; [apply lookup_delete_eq|]. split.
- intros id' Hne. by apply lookup_delete_ne.
- split; [done|]. intros Hnone. rewrite delete_id by done. by destruct w.
Qed.

Lemma foldr_delete_delete (t : gmap string SessionData) id ids :
  foldr delete (delete id t) ids = delete id (foldr delete t ids).
Proof.
induction ids as [|id' ids IH]; cbn [foldr]; [done|].
rewrite IH. apply delete_delete.
Qed.

Lemma delete_all_run ids : ∀ w,
  foldr (λ session_id rest, delete_session session_id;; rest) (mret tt) ids w
  = (tt, {| sessions := foldr delete (sessions w) ids; trace := trace w |}).
Proof.
induction ids as [|id ids IH]; intros w; cbn [foldr].
- by destruct w.
- erewrite bind_run by apply delete_session_run. rewrite IH. cbn [sessions trace].
  by rewrite foldr_delete_delete.
Qed.

Lemma lookup_foldr_delete (t : gmap string SessionData) ids id :
  foldr delete t ids !! id = if decide (id ∈ ids) then None else t !! id.
Proof.
induction ids as [|id' ids IH]; cbn [foldr].
- by rewrite decide_False by apply not_elem_of_nil.
- destruct (decide (id' = id)) as [->|Hne].
  + rewrite lookup_delete_eq.
    by rewrite decide_True by (apply elem_of_cons; by left).
  + rewrite lookup_delete_ne by done. rewrite IH.
    destruct (decide (id ∈ ids)).
    * by rewrite decide_True by (apply elem_of_cons; by right).
    * rewrite decide_False; [done|].
      intros Hin. apply elem_of_cons in Hin as [?|?]; congruence.
Qed.

(** X11. After a cleanup at time [now] the table holds exactly the
    sessions that were in it and are not older than the timeout, each
    unchanged. *)
Theorem cleanup_keeps_the_live_sessions (now : Z) (w : World) :
  ∀ id, sessions (cleanup_old_sessions settings now w).2 !! id
        = match sessions w !! id with
          | Some session =>
              if bool_decide (expired settings now session) then None
              else Some session
          | None => None
          end.
Proof.
intros id. unfold cleanup_old_sessions.
erewrite bind_run by reflexivity. cbv zeta.
rewrite delete_all_run. cbn [snd sessions]. rewrite lookup_foldr_delete.
destruct (sessions w !! id) as [session|] eqn:Hs.
- case_bool_decide as Hexp.
  + rewrite decide_True; [done|].
    apply list_elem_of_fmap. exists (id, session). split; [done|].
    apply list_elem_of_filter. split; [done|]. by apply elem_of_map_to_list.
  + rewrite decide_False; [done|].
    intros ([id' session'] & -> & Hin)%list_elem_of_fmap.
    apply list_elem_of_filter in Hin as [Hold Hin].
    apply elem_of_map_to_list in Hin. cbn in *. by simplify_eq.
- destruct (decide _) as [Hin|]; [|done]. done.
Qed.

(** The values two intelligence records hold, category by category. *)
Definition same_values (a b : ExtractedIntelligence) : Prop :=
  (∀ x, x ∈ bankAccounts a ↔ x ∈ bankAccounts b)
  ∧ (∀ x, x ∈ upiIds a ↔ x ∈ upiIds b)
  ∧ (∀ x, x ∈ phishingLinks a ↔ x ∈ phishingLinks b)
  ∧ (∀ x, x ∈ phoneNumbers a ↔ x ∈ phoneNumbers b)
  ∧ (∀ x, x ∈ suspiciousKeywords a ↔ x ∈ suspiciousKeywords b).

(** X12. [update_intelligence] is a set union per category. Afterwards
    each of the four categories it reads holds exactly the values it held
    before and the values of the new dict; the keywords and every other
    field of the session are as they were, and the session is stored under
    its id. Hence merging an extraction a second time adds nothing, and
    two extractions give the same values in whichever order they are
    merged. *)
Theorem update_intelligence_is_a_union (session : SessionData)
    (first second : intel_dict) (w : World) :
  let once := (update_intelligence session first w).1 in
  let twice := (update_intelligence once first w).1 in
  let first_second := (update_intelligence once second w).1 in
  let second_first :=
    (update_intelligence (update_intelligence session second w).1 first w).1 in
  let old := extractedIntelligence session in
  let intel := extractedIntelligence once in
  ((∀ x, x ∈ upiIds intel ↔ x ∈ upiIds old ∨ x ∈ get_list first "upi_ids")
   ∧ (∀ x, x ∈ phishingLinks intel ↔
           x ∈ phishingLinks old ∨ x ∈ get_list first "urls")
   ∧ (∀ x, x ∈ phoneNumbers intel ↔
           x ∈ phoneNumbers old ∨ x ∈ get_list first "phone_numbers")
   ∧ (∀ x, x ∈ bankAccounts intel ↔
           x ∈ bankAccounts old ∨ x ∈ get_list first "bank_accounts")
   ∧ suspiciousKeywords intel = suspiciousKeywords old)
  ∧ once = set_extractedIntelligence intel session
  ∧ sessions (update_intelligence session first w).2
    = <[sessionId session := once]> (sessions w)
  ∧ trace (update_intelligence session first w).2 = trace w
  ∧ same_values (extractedIntelligence twice) (extractedIntelligence once)
  ∧ same_values (extractedIntelligence first_second)
      (extractedIntelligence second_first).
Proof.
cbv zeta. rewrite !update_intelligence_run. cbn [fst snd].
split; [apply with_intelligence_union|].
split; [reflexivity|]. split; [reflexivity|]. split; [reflexivity|].
unfold same_values, with_intelligence; cbv zeta.
cbn [extractedIntelligence set_extractedIntelligence bankAccounts upiIds
     phishingLinks phoneNumbers suspiciousKeywords].
repeat split; intros Hx; rewrite ?elem_of_add_category in *; tauto.
Qed.
End session_table.

Lemma created_session_is_found_witness :
  1800000000 - 0 ≤ timeout default_settings
  ∧ get_session default_settings 1800000000 "s" (create_session 0 "s" empty_world).2
    = (Some (new_session 0 "s"), (create_session 0 "s" empty_world).2).
Proof.
split; [vm_compute; discriminate|].
apply (created_session_is_found default_settings 0 1800000000 "s" empty_world).
vm_compute. discriminate.
Defined.

(** ** Requests and their events *)

Section request_events.
Context `{PySet} (settings : Settings).

(** The events one request adds to the trace. *)
Definition request_events (env : Env) (request : HoneypotRequest)
    (x_api_key : option string) (w : World) : list Event :=
  drop (length (trace w))
    (trace (handle_message settings env request x_api_key w).2).

(** X13. A request whose key is not the configured one is refused without
    touching anything: the table and the trace stay as they are, and the
    answer is 401 when the key is missing or empty and 403 otherwise. *)
Theorem refused_request_changes_nothing (env : Env) (request : HoneypotRequest)
    (x_api_key : option string) (w : World) :
  x_api_key ≠ Some (API_KEY settings) →
  handle_message settings env request x_api_key w
  = (match x_api_key with
     | None => Http401
     | Some key => if bool_decide (key = "") then Http401 else Http403
     end, w).
Proof.
intros Hkey. apply handle_message_refused. unfold verify_api_key.
destruct x_api_key as [key|]; [|done].
case_bool_decide; [done|].
rewrite bool_decide_eq_true_2; [done|]. congruence.
Qed.

Lemma deliveries_app (a b : list Event) :
  deliveries (a ++ b) = deliveries a ++ deliveries b.
Proof. apply omap_app. Qed.

Lemma scoring_events_shape env request session :
  scoring_events env request session = []
  ∨ scoring_events env request session = [Scored (text (message request))]
  ∨ ∃ context, scoring_events env request session
               = [Scored (text (message request)); Classified context].
Proof.
unfold scoring_events. destruct (negb _); [|by left]. right.
apply detection_events_scored.
Qed.

Lemma deliveries_scoring_events env request session :
  deliveries (scoring_events env request session) = [].
Proof.
destruct (scoring_events_shape env request session) as [->|[->|[context ->]]];
  reflexivity.
Qed.

(** X14. A turn that leaves the scam unconfirmed consists of the scorer
    alone: its events are the scorer's entry, followed by one classifier
    call when the keyword score is below 6. The reply generator is not
    called and no report is posted. *)
Theorem rejected_turn_only_scores (env : Env) (request : HoneypotRequest)
    (x_api_key : option string) (w : World) (session' : SessionData) :
  well_keyed w →
  verify_api_key settings x_api_key = None →
  sessions (handle_message settings env request x_api_key w).2
    !! request_sessionId request = Some session' →
  scamDetected session' = false →
  request_events env request x_api_key w
  = Scored (text (message request))
    :: (if bool_decide (6 ≤ score (heuristic_scam_score (text (message request))))
        then []
        else [Classified (full_context (text (message request))
                            (conversationHistory request))]).
Proof.
intros Hw Hkey Hs' Hflag. unfold request_events.
rewrite handle_message_own_session in Hs' by done. injection Hs' as <-.
pose proof Hflag as Hrejected. rewrite turn_session_flag in Hrejected.
apply rejected_turn_iff in Hflag as [Hs0 _].
rewrite handle_message_trace, drop_app_length by done.
unfold turn_events; cbv zeta. rewrite Hrejected. cbn [negb].
unfold scoring_events, arrived.
change (scamDetected (with_message (message request) ?s)) with (scamDetected s).
rewrite Hs0. cbn [negb].
unfold detection_events, predict_scam.
fold (full_context (text (message request)) (conversationHistory request)).
generalize (heuristic_scam_score (text (message request))). intros heuristic.
unfold mbind, M_bind, emit, mret, M_ret; cbv zeta beta.
case_bool_decide; [reflexivity|].
generalize (llm_fraud_classification env
  (full_context (text (message request)) (conversationHistory request))).
intros llm. destruct (_ && _); [reflexivity|]. by case_bool_decide.
Qed.
End request_events.

(** ** Reports *)

Section reports.
Context `{PySet} (settings : Settings).

Lemma append_dot_nonempty (s : string) : s +:+ "." ≠ "".
Proof. by destruct s. Qed.

(** X15. The notes written for a report are never the empty string,
    whatever the session holds. *)
Theorem build_agent_notes_is_not_empty (session : SessionData) :
  build_agent_notes session ≠ "".
Proof.
unfold build_agent_notes; cbv zeta.
match goal with |- (if truthy ?notes then _ else _) ≠ _ => generalize notes end.
intros notes. destruct (truthy notes); [apply append_dot_nonempty | done].
Qed.

Lemma should_send_callback_notes notes session :
  should_send_callback settings (set_agentNotes notes session)
  = should_send_callback settings session.
Proof. reflexivity. Qed.

(** What the two callback blocks do to the session that has just been
    replied to. *)
Lemma callback_blocks session :
  let s' := after_max_turns settings (after_callback settings session) in
  let reports := deliveries (callback_events settings session
                             ++ max_turns_events settings
                                  (after_callback settings session)) in
  (reports = [] ∧ s' = session
   ∧ (should_send_callback settings session = false)
   ∧ (MAX_TURNS settings ≤ totalMessages session →
      scamDetected session = true → agentNotes session ≠ ""))
  ∨ (reports = [final_payload s']
     ∧ s' = set_agentNotes (build_agent_notes session) session
     ∧ scamDetected session = true
     ∧ (3 ≤ totalMessages session ∨ MAX_TURNS settings ≤ totalMessages session)).
Proof.
cbv zeta. unfold callback_events, max_turns_events, after_max_turns, after_callback.
destruct (should_send_callback settings session) eqn:Hsend.
- right.
  apply should_send_callback_spec in Hsend as (Hscam & Htotal & _).
  cbn [agentNotes set_agentNotes totalMessages scamDetected].
  rewrite (bool_decide_eq_false_2 (build_agent_notes session = ""))
    by apply build_agent_notes_is_not_empty.
  rewrite andb_false_r. destruct (bool_decide _); cbn; by auto.
- destruct (decide (MAX_TURNS settings ≤ totalMessages session)) as [Hmax|Hmax].
  + rewrite !(bool_decide_eq_true_2 _ Hmax).
    destruct (scamDetected session) eqn:Hscam; cbn [andb].
    * destruct (decide (agentNotes session = "")) as [Hnotes|Hnotes].
      -- rewrite !(bool_decide_eq_true_2 _ Hnotes). right. cbn. by auto.
      -- rewrite !(bool_decide_eq_false_2 _ Hnotes). left. by repeat split.
    * left. by repeat split.
  + rewrite !(bool_decide_eq_false_2 _ Hmax). left. by repeat split.
Qed.

(** X16. One request posts at most one report. A report is only posted
    for a flagged session, under the id of the request, with notes that
    are not empty, and when the session has at least three messages or has
    reached the maximum number of turns. *)
Theorem at_most_one_report_per_request (env : Env) (request : HoneypotRequest)
    (x_api_key : option string) (w : World) :
  well_keyed w →
  let reports := deliveries (request_events settings env request x_api_key w) in
  (length reports ≤ 1)%nat
  ∧ ∀ payload, payload ∈ reports →
      payload_scamDetected payload = true
      ∧ payload_sessionId payload = request_sessionId request
      ∧ payload_agentNotes payload ≠ ""
      ∧ (3 ≤ totalMessagesExchanged payload
         ∨ MAX_TURNS settings ≤ totalMessagesExchanged payload).
Proof.
intros Hw. cbv zeta. unfold request_events.
rewrite handle_message_events by done.
destruct (verify_api_key settings x_api_key) as [error|];
  [by split; [cbn; lia | intros ? ?%elem_of_nil]|].
unfold turn_events; cbv zeta.
set (s2 := after_scoring env request (arrived settings env request w)).
destruct (negb (scamDetected s2)).
{ rewrite deliveries_scoring_events.
  by split; [cbn; lia | intros ? ?%elem_of_nil]. }
unfold engaged_events.
rewrite !deliveries_app, deliveries_scoring_events, <- deliveries_app.
cbn [deliveries omap app].
change (omap _ ?l) with (deliveries l).
set (s6 := replied env request s2).
assert (Hid : sessionId s6 = request_sessionId request).
{ unfold s6, s2. cbn. rewrite sessionId_after_scoring.
  by apply current_session_id. }
destruct (callback_blocks s6) as [(-> & _)|(-> & Hs' & Hscam & Htotal)].
- by split; [cbn; lia | intros ? ?%elem_of_nil].
- split; [cbn; lia|].
  intros payload ->%list_elem_of_singleton. rewrite Hs'.
  unfold final_payload.
  cbn [payload_scamDetected payload_sessionId payload_agentNotes
       totalMessagesExchanged scamDetected sessionId agentNotes totalMessages
       set_agentNotes].
  rewrite bool_decide_eq_false_2 by apply build_agent_notes_is_not_empty.
  split; [done|]. split; [done|].
  split; [apply build_agent_notes_is_not_empty | done].
Qed.

(** X17. At the end of an engaged turn the session carries notes as soon
    as the callback policy holds for it or its message count has reached
    the maximum number of turns. *)
Theorem finalized_session_has_notes (env : Env) (request : HoneypotRequest)
    (x_api_key : option string) (w : World) (session' : SessionData) :
  well_keyed w →
  verify_api_key settings x_api_key = None →
  sessions (handle_message settings env request x_api_key w).2
    !! request_sessionId request = Some session' →
  scamDetected session' = true →
  should_send_callback settings session' = true
  ∨ MAX_TURNS settings ≤ totalMessages session' →
  agentNotes session' ≠ "".
Proof.
intros Hw Hkey Hs' Hflag Hfinal.
rewrite handle_message_own_session in Hs' by done. injection Hs' as <-.
pose proof Hflag as Hengaged. rewrite turn_session_flag in Hengaged.
revert Hflag Hfinal. unfold turn_session; cbv zeta.
rewrite Hengaged. cbn [negb]. unfold finished.
set (s6 := replied env request _).
destruct (callback_blocks s6) as [(_ & -> & Hsend & Hmax)|(_ & -> & _)].
- intros Hflag [Hfinal|Hfinal]; [congruence | by apply Hmax].
- intros _ _. apply build_agent_notes_is_not_empty.
Qed.
End reports.

(** ** Invariants of the session table *)

Section invariants.
Context `{PySet} (settings : Settings).

(** One served turn, from the session the request works on. *)
Definition turn_step (env : Env) (request : HoneypotRequest)
    (session : SessionData) : SessionData :=
  let s2 := after_scoring env request (with_message (message request) session) in
  if negb (scamDetected s2) then s2 else finished settings env request s2.

Lemma turn_session_step env request w :
  turn_session settings env request w
  = turn_step env request
      (current_session settings env (request_sessionId request) w).
Proof. reflexivity. Qed.

(** A property of sessions that new sessions have and turns keep holds
    for every session of every table the server can reach. *)
Lemma serve_invariant (P : SessionData → Prop) :
  (∀ now id, P (new_session now id)) →
  (∀ env request session, P session → P (turn_step env request session)) →
  ∀ requests w,
    well_keyed w →
    map_Forall (λ _ session, P session) (sessions w) →
    map_Forall (λ _ session, P session) (sessions (serve settings requests w).2).
Proof.
intros Hnew Hstep.
induction requests as [|[[env request] x_api_key] rest IH]; intros w Hw HP.
- done.
- rewrite serve_cons. cbv zeta. cbn [snd].
  apply IH; [by apply handle_message_well_keyed|].
  destruct (verify_api_key settings x_api_key) as [error|] eqn:Hkey.
  + by erewrite handle_message_refused.
  + rewrite handle_message_world by done. unfold record, store. cbn [sessions].
    apply map_Forall_insert_2; [|done].
    rewrite turn_session_step. apply Hstep. unfold current_session.
    destruct (sessions w !! request_sessionId request) as [session|] eqn:Hs;
      [|apply Hnew].
    case_bool_decide; [apply Hnew|]. by apply HP in Hs.
Qed.

Lemma finished_history env request session :
  history (finished settings env request session)
  = history session
    ++ [{| sender := "user"; text := turn_reply env request session;
           timestamp := timestamp (message request) + 1000 |}].
Proof.
unfold finished, after_max_turns, after_callback.
set (s6 := replied env request session).
assert (Hs6 : history s6 = history session
    ++ [{| sender := "user"; text := turn_reply env request session;
           timestamp := timestamp (message request) + 1000 |}])
  by reflexivity.
clearbody s6.
destruct (should_send_callback settings s6);
  destruct (bool_decide _); try destruct (_ && _); exact Hs6.
Qed.

Lemma after_scoring_history env request session :
  history (after_scoring env request session) = history session.
Proof.
unfold after_scoring; cbv zeta.
destruct (negb _); [|done]. destruct (is_scam _); [|done].
apply flagged_fields.
Qed.

(** X18. In every table reached from the empty one by serving requests,
    each session's message count is the length of its history. *)
Theorem message_count_is_history_length
    (requests : list (Env * HoneypotRequest * option string)) :
  map_Forall (λ _ session,
      totalMessages session = Z.of_nat (length (history session)))
    (sessions (serve settings requests empty_world).2).
Proof.
apply serve_invariant; [done| |apply well_keyed_empty|apply map_Forall_empty].
intros env request session Hcount. unfold turn_step; cbv zeta.
set (s1 := with_message (message request) session).
assert (Hs1 : totalMessages s1 = Z.of_nat (length (history s1))).
{ unfold s1. cbn. rewrite length_app. cbn. lia. }
assert (Hs2 : totalMessages (after_scoring env request s1)
              = Z.of_nat (length (history (after_scoring env request s1)))).
{ rewrite after_scoring_history.
  by rewrite (proj1 (proj2 (after_scoring_fields env request s1))). }
destruct (negb _); [done|].
rewrite finished_history, length_app.
destruct (finished_fields settings env request (after_scoring env request s1))
  as (_ & _ & _ & _ & -> & _).
cbn [length]. lia.
Qed.

(** No category of the intelligence lists a value twice. *)
Definition duplicate_free (intel : ExtractedIntelligence) : Prop :=
  NoDup (bankAccounts intel) ∧ NoDup (upiIds intel)
  ∧ NoDup (phishingLinks intel) ∧ NoDup (phoneNumbers intel)
  ∧ NoDup (suspiciousKeywords intel).

Lemma add_category_NoDup new old : NoDup old → NoDup (add_category new old).
Proof.
intros Hold. unfold add_category. destruct (truthy new); [|done].
apply set_list_NoDup.
Qed.

(** X19. In every table reached from the empty one by serving requests,
    no category of any session's intelligence holds a value twice. *)
Theorem intelligence_has_no_duplicates
    (requests : list (Env * HoneypotRequest * option string)) :
  map_Forall (λ _ session, duplicate_free (extractedIntelligence session))
    (sessions (serve settings requests empty_world).2).
Proof.
apply serve_invariant;
  [|  |apply well_keyed_empty|apply map_Forall_empty].
- intros now id. repeat split; apply NoDup_nil_2.
- intros env request session Hdup. unfold turn_step; cbv zeta.
  set (s1 := with_message (message request) session).
  assert (Hs2 : duplicate_free
            (extractedIntelligence (after_scoring env request s1))).
  { unfold after_scoring; cbv zeta.
    destruct (negb _); [|done]. destruct (is_scam _); [|done].
    unfold flagged; cbv zeta.
    destruct (details _) as [|heuristic|]; [done| |done].
    destruct (truthy _); [|done].
    destruct Hdup as (? & ? & ? & ? & ?).
    repeat split; try done. apply set_list_NoDup. }
  destruct (negb _); [done|].
  destruct (finished_fields settings env request (after_scoring env request s1))
    as (_ & _ & _ & _ & _ & ->).
  destruct Hs2 as (? & ? & ? & ? & ?).
  unfold with_intelligence; cbv zeta.
  repeat split; cbn [extractedIntelligence set_extractedIntelligence bankAccounts
    upiIds phishingLinks phoneNumbers suspiciousKeywords];
    try apply add_category_NoDup; done.
Qed.

(** X20. In every table reached from the empty one by serving requests, a
    session that is not flagged has collected nothing: its stage is
    [trust], its intelligence and memory are empty and it has no notes. *)
Theorem unflagged_session_is_pristine
    (requests : list (Env * HoneypotRequest * option string)) :
  map_Forall (λ _ session,
      scamDetected session = false →
      stage session = "trust"
      ∧ extractedIntelligence session = no_intelligence
      ∧ memory session = ∅
      ∧ agentNotes session = "")
    (sessions (serve settings requests empty_world).2).
Proof.
apply serve_invariant; [done| |apply well_keyed_empty|apply map_Forall_empty].
intros env request session Hpristine. unfold turn_step; cbv zeta.
set (s1 := with_message (message request) session).
destruct (scamDetected (after_scoring env request s1)) eqn:Hflag; cbn [negb].
- destruct (finished_fields settings env request (after_scoring env request s1))
    as (_ & _ & -> & _). by rewrite Hflag.
- intros _. revert Hflag. unfold after_scoring; cbv zeta.
  change (scamDetected s1) with (scamDetected session).
  destruct (scamDetected session) eqn:Hs; cbn [negb].
  + intros Habs. change (scamDetected session = false) in Habs. congruence.
  + destruct (is_scam _); [by rewrite scamDetected_flagged|].
    intros _. by apply Hpristine.
Qed.
End invariants.

(** ** More on the engaged turn *)

(** The prompts handed to the reply generator among the events. *)
Definition prompts (events : list Event) : list Prompt :=
  omap (λ e, match e with Generated prompt => Some prompt | _ => None end)
    events.

Section engaged_turn_shape.
Context `{PySet} (settings : Settings).

Lemma prompts_app (a b : list Event) : prompts (a ++ b) = prompts a ++ prompts b.
Proof. apply omap_app. Qed.

Lemma prompts_scoring_events env request session :
  prompts (scoring_events env request session) = [].
Proof.
destruct (scoring_events_shape env request session) as [->|[->|[context ->]]];
  reflexivity.
Qed.

Lemma prompts_callback_events session :
  prompts (callback_events settings session) = []
  ∧ prompts (max_turns_events settings session) = [].
Proof.
unfold callback_events, max_turns_events.
destruct (should_send_callback settings session);
  destruct (bool_decide (MAX_TURNS settings ≤ totalMessages session));
  destruct (scamDetected session && bool_decide (agentNotes session = ""));
  by split.
Qed.

Lemma but_last_snoc {A} (l : list A) (x : A) : but_last (l ++ [x]) = l.
Proof.
unfold but_last. rewrite length_app. cbn [length].
replace (length l + 1 - 1)%nat with (length l) by lia.
apply take_app_length.
Qed.

(** X21. An engaged turn calls the reply generator exactly once, with the
    session's history as it was before the incoming message; it answers
    with the generated reply, and it appends to the history the incoming
    message and then the reply, sent by [user] one second later, so the
    message count grows by two. *)
Theorem engaged_turn_appends_reply (env : Env) (request : HoneypotRequest)
    (x_api_key : option string) (w : World) (session' : SessionData) :
  well_keyed w →
  verify_api_key settings x_api_key = None →
  sessions (handle_message settings env request x_api_key w).2
    !! request_sessionId request = Some session' →
  scamDetected session' = true →
  let session := current_session settings env (request_sessionId request) w in
  ∃ prompt,
    prompts (request_events settings env request x_api_key w) = [prompt]
    ∧ prompt_current_message prompt = text (message request)
    ∧ prompt_history prompt = (λ m, (sender m, text m)) <$> history session
    ∧ prompt_stage prompt = stage session'
    ∧ (handle_message settings env request x_api_key w).1
      = Http200 {| status := "success";
                   reply := generate_agent_reply env prompt |}
    ∧ history session'
      = history session
        ++ [message request;
            {| sender := "user"; text := generate_agent_reply env prompt;
               timestamp := timestamp (message request) + 1000 |}]
    ∧ totalMessages session' = totalMessages session + 2.
Proof.
intros Hw Hkey Hs' Hflag. cbv zeta.
rewrite handle_message_own_session in Hs' by done. injection Hs' as <-.
pose proof Hflag as Hengaged. rewrite turn_session_flag in Hengaged.
unfold request_events.
rewrite handle_message_trace, drop_app_length by done.
rewrite handle_message_run by done. cbv zeta.
unfold turn_events, turn_session; cbv zeta. rewrite Hengaged. cbn [negb fst].
set (s1 := arrived settings env request w).
set (s2 := after_scoring env request s1).
exists (turn_prompt request (staged request s2)).
assert (Hhist : history s2
          = history (current_session settings env (request_sessionId request) w)
            ++ [message request]).
{ unfold s2. by rewrite after_scoring_history. }
assert (Htotal : totalMessages s2
          = totalMessages
              (current_session settings env (request_sessionId request) w) + 1).
{ unfold s2. by rewrite (proj1 (proj2 (after_scoring_fields env request s1))). }
split.
{ unfold engaged_events. rewrite !prompts_app, prompts_scoring_events.
  destruct (prompts_callback_events (replied env request s2)) as [-> _].
  destruct (prompts_callback_events
              (after_callback settings (replied env request s2))) as [_ ->].
  reflexivity. }
split; [reflexivity|]. split.
{ change (prompt_history (turn_prompt request (staged request s2)))
    with ((λ m, (sender m, text m)) <$> but_last (history s2)).
  by rewrite Hhist, but_last_snoc. }
split.
{ by rewrite (proj1 (proj2 (proj2 (proj2
     (finished_fields settings env request s2))))). }
split; [reflexivity|]. split.
- rewrite finished_history, Hhist, <- (assoc_L (++)). reflexivity.
- destruct (finished_fields settings env request s2) as (_ & _ & _ & _ & -> & _).
  lia.
Qed.

(** X22. On the turn that flags a session, the matched keywords are added
    to the session's keywords when the keyword score reached 6; when the
    score was lower and the classifier declared the scam, the keywords
    stay as they were, even if some keyword matched. *)
Theorem keywords_are_kept_for_heuristic_detections (env : Env)
    (request : HoneypotRequest) (x_api_key : option string) (w : World)
    (session' : SessionData) :
  well_keyed w →
  verify_api_key settings x_api_key = None →
  sessions (handle_message settings env request x_api_key w).2
    !! request_sessionId request = Some session' →
  scamDetected session' = true →
  let session := current_session settings env (request_sessionId request) w in
  let heuristic := heuristic_scam_score (text (message request)) in
  scamDetected session = false →
  (6 ≤ score heuristic →
     ∀ keyword,
       keyword ∈ suspiciousKeywords (extractedIntelligence session') ↔
       keyword ∈ suspiciousKeywords (extractedIntelligence session)
       ∨ keyword ∈ matched_keywords heuristic)
  ∧ (score heuristic < 6 →
       suspiciousKeywords (extractedIntelligence session')
       = suspiciousKeywords (extractedIntelligence session)).
Proof.
intros Hw Hkey Hs' Hflag. cbv zeta. intros Hs0.
rewrite handle_message_own_session in Hs' by done. injection Hs' as <-.
pose proof Hflag as Hengaged. rewrite turn_session_flag in Hengaged.
unfold turn_session; cbv zeta. rewrite Hengaged. cbn [negb].
destruct (finished_fields settings env request
            (after_scoring env request (arrived settings env request w)))
  as (_ & _ & _ & _ & _ & ->).
change (suspiciousKeywords (extractedIntelligence (with_intelligence ?e ?s)))
  with (suspiciousKeywords (extractedIntelligence s)).
revert Hengaged. unfold after_scoring, arrived; cbv zeta.
set (s0 := current_session settings env (request_sessionId request) w) in *.
change (scamDetected (with_message (message request) s0)) with (scamDetected s0).
rewrite Hs0. cbn [negb].
destruct (detection_details env (text (message request))
            (conversationHistory request)) as [Hhigh Hlow].
cbv zeta in Hhigh, Hlow.
generalize dependent (detection env (text (message request))
                        (conversationHistory request)).
generalize (heuristic_scam_score (text (message request))).
intros heuristic d Hhigh Hlow.
destruct (is_scam d) eqn:Hd.
2: { change (scamDetected (with_message (message request) s0))
       with (scamDetected s0). congruence. }
intros _. unfold flagged; cbv zeta. split.
- intros Hscore. rewrite (Hhigh Hscore).
  destruct (matched_keywords heuristic) as [|k ks] eqn:Hm; cbn [truthy].
  + intros keyword. split; [by left | by intros [?|?%elem_of_nil]].
  + intros keyword. cbn. by rewrite set_list_elem, elem_of_app.
- intros Hscore. by destruct (Hlow Hscore eq_refl) as [llm ->].
Qed.

(** X23. A request to an id whose session has expired does not see the old
    session: the scorer is run again even if the old session was flagged,
    and the session left under the id is a new one, created at the time of
    the request, whose history starts with the incoming message. *)
Theorem expired_session_starts_over (env : Env) (request : HoneypotRequest)
    (x_api_key : option string) (w : World) (old : SessionData) :
  well_keyed w →
  verify_api_key settings x_api_key = None →
  sessions w !! request_sessionId request = Some old →
  expired settings (clock_lookup env) old →
  ∃ session' later_events later_messages,
    sessions (handle_message settings env request x_api_key w).2
      !! request_sessionId request = Some session'
    ∧ createdAt session' = clock_create env
    ∧ history session' = message request :: later_messages
    ∧ request_events settings env request x_api_key w
      = Scored (text (message request)) :: later_events.
Proof.
intros Hw Hkey Hold Hexpired.
assert (Hs0 : current_session settings env (request_sessionId request) w
              = new_session (clock_create env) (request_sessionId request)).
{ unfold current_session. rewrite Hold. by rewrite bool_decide_eq_true_2. }
rewrite handle_message_own_session by done.
unfold request_events. rewrite handle_message_trace, drop_app_length by done.
unfold turn_events, turn_session, arrived; cbv zeta. rewrite Hs0.
set (s1 := with_message (message request) (new_session _ _)).
assert (Hevents : ∃ later,
  scoring_events env request s1 = Scored (text (message request)) :: later).
{ unfold scoring_events. cbn [s1 negb scamDetected with_message new_session
    set_totalMessages set_history].
  destruct (detection_events_scored env (text (message request))
              (conversationHistory request)) as [->|[context ->]]; by eexists. }
destruct Hevents as [later Hevents].
assert (Hhist : history (after_scoring env request s1) = [message request])
  by by rewrite after_scoring_history.
assert (Hcreated : createdAt (after_scoring env request s1) = clock_create env)
  by by rewrite (proj1 (after_scoring_fields env request s1)).
destruct (negb (scamDetected (after_scoring env request s1))).
- exists (after_scoring env request s1), later, []. by rewrite Hevents.
- eexists _, _, _. split; [done|].
  rewrite finished_history, Hhist, Hevents.
  destruct (finished_fields settings env request (after_scoring env request s1))
    as (_ & -> & _).
  split; [done|]. split; reflexivity.
Qed.
End engaged_turn_shape.

(** ** The other endpoints of app/api/v1/honeypot.py *)

(** What an endpoint other than [handle_message] answers. *)
Inductive Answer (A : Type) :=
  | Refused (error : HttpResult)   (* 401 or 403, from [verify_api_key] *)
  | NotFound                       (* 404 *)
  | Ok (body : A).                 (* 200 *)
Arguments Refused {A} error.
Arguments NotFound {A}.
Arguments Ok {A} body.

(** The dict [get_session_info] returns. *)
Record SessionInfo := {
  info_sessionId : string;
  info_scamDetected : bool;
  info_totalMessages : Z;
  info_stage : string;
  info_extractedIntelligence : ExtractedIntelligence;
  conversationLength : Z;
}.

(** The dict [get_stats] returns. *)
Record Stats := {
  activeSessions : Z;
  maxTurns : Z;
  apiVersion : string;
}.

Module Endpoints.
Section endpoints.
Context (settings : Settings).

(** [get_session_info]; [now] is the clock read by [get_session] *)
Definition get_session_info (now : Z) (session_id : string)
    (x_api_key : option string) : M (Answer SessionInfo) :=
  match verify_api_key settings x_api_key with
  | Some error => mret (Refused error)
  | None =>
      session ← get_session settings now session_id;
      match session with
      | None => mret NotFound
      | Some session =>
          mret (Ok {| info_sessionId := sessionId session;
                      info_scamDetected := scamDetected session;
                      info_totalMessages := totalMessages session;
                      info_stage := stage session;
                      info_extractedIntelligence := extractedIntelligence session;
                      conversationLength := Z.of_nat (length (history session)) |})
      end
  end.

(** [delete_session], the endpoint *)
Definition delete_session (session_id : string) (x_api_key : option string)
    : M (Answer string) :=
  match verify_api_key settings x_api_key with
  | Some error => mret (Refused error)
  | None =>
      SessionManager.delete_session session_id;;
      mret (Ok ("Session " +:+ session_id +:+ " deleted"))
  end.

(** [get_stats] *)
Definition get_stats (x_api_key : option string) : M (Answer Stats) :=
  match verify_api_key settings x_api_key with
  | Some error => mret (Refused error)
  | None =>
      count ← get_session_count;
      mret (Ok {| activeSessions := count; maxTurns := MAX_TURNS settings;
                  apiVersion := "1.0.0" |})
  end.
End endpoints.
End Endpoints.

Section endpoint_properties.
Context `{PySet} (settings : Settings).

(** What is read from a session. *)
Definition info_of (session : SessionData) : SessionInfo :=
  {| info_sessionId := sessionId session;
     info_scamDetected := scamDetected session;
     info_totalMessages := totalMessages session;
     info_stage := stage session;
     info_extractedIntelligence := extractedIntelligence session;
     conversationLength := Z.of_nat (length (history session)) |}.

(** X24. After a served message, reading the session of the request at a
    time within the timeout of the session's creation answers 200 with
    what the message left in the table (id, flag, message count, stage,
    intelligence, length of the history) and changes nothing. *)
Theorem session_info_after_message (env : Env) (request : HoneypotRequest)
    (x_api_key : option string) (w : World) (now : Z) (session' : SessionData) :
  well_keyed w →
  verify_api_key settings x_api_key = None →
  sessions (handle_message settings env request x_api_key w).2
    !! request_sessionId request = Some session' →
  now - createdAt session' ≤ timeout settings →
  Endpoints.get_session_info settings now (request_sessionId request) x_api_key
    (handle_message settings env request x_api_key w).2
  = (Ok (info_of session'), (handle_message settings env request x_api_key w).2).
Proof.
intros Hw Hkey Hs' Hage. unfold Endpoints.get_session_info. rewrite Hkey.
erewrite bind_run
  by (apply (get_session_live settings now _ _ session');
      [done | unfold expired; lia]).
reflexivity.
Qed.

(** X25. With a valid key the delete endpoint answers 200 whether or not
    the id is in the table; it leaves the other sessions and the trace
    alone, and a later read of the id answers 404 at any time. *)
Theorem deleted_session_is_not_found (id : string) (x_api_key : option string)
    (w : World) (now : Z) :
  verify_api_key settings x_api_key = None →
  let w' := (Endpoints.delete_session settings id x_api_key w).2 in
  (Endpoints.delete_session settings id x_api_key w).1
    = Ok ("Session " +:+ id +:+ " deleted")
  ∧ w' = {| sessions := delete id (sessions w); trace := trace w |}
  ∧ (sessions w !! id = None → w' = w)
  ∧ Endpoints.get_session_info settings now id x_api_key w' = (NotFound, w').
Proof.
intros Hkey. cbv zeta. unfold Endpoints.delete_session. rewrite Hkey.
erewrite bind_run by apply delete_session_run.
unfold mret, M_ret. cbn [fst snd].
split; [done|]. split; [done|]. split.
- intros Hnone. rewrite delete_id by done. by destruct w.
- unfold Endpoints.get_session_info. rewrite Hkey.
  erewrite bind_run
    by (apply get_session_absent; cbn; apply lookup_delete_eq).
  reflexivity.
Qed.

(** X26. The statistics count every entry of the table. A served message
    raises the count by one when its id was not in the table and leaves it
    as it was when the id was there, also when that session had expired
    and was replaced. *)
Theorem stats_after_message (env : Env) (request : HoneypotRequest)
    (x_api_key : option string) (w : World) :
  well_keyed w →
  verify_api_key settings x_api_key = None →
  let w' := (handle_message settings env request x_api_key w).2 in
  Endpoints.get_stats settings x_api_key w'
  = (Ok {| activeSessions :=
             Z.of_nat (size (sessions w))
             + match sessions w !! request_sessionId request with
               | Some _ => 0
               | None => 1
               end;
           maxTurns := MAX_TURNS settings; apiVersion := "1.0.0" |}, w').
Proof.
intros Hw Hkey. cbv zeta. unfold Endpoints.get_stats. rewrite Hkey.
unfold get_session_count, mbind, M_bind, get_sessions, mret, M_ret.
f_equal. f_equal. f_equal.
rewrite handle_message_world by done. unfold record, store. cbn [sessions].
rewrite turn_session_id by done.
destruct (sessions w !! request_sessionId request) as [session|] eqn:Hs.
- rewrite map_size_insert_Some by done. lia.
- rewrite map_size_insert_None by done. lia.
Qed.
End endpoint_properties.

(** ** The further properties on concrete conversations *)

Definition hello_request : HoneypotRequest := request_to "a" "hello".

Lemma flagged_world_well_keyed : well_keyed flagged_world.
Proof. apply handle_message_well_keyed, well_keyed_empty. Qed.

(** The session of ["a"] after [scam_request] and then [hello_request]. *)
Definition reported_session : SessionData :=
  turn_session default_settings (quiet_env 1000000) hello_request flagged_world.

Lemma refused_request_changes_nothing_witness :
  None ≠ Some (API_KEY default_settings)
  ∧ handle_message default_settings (quiet_env 0) greeting None empty_world
    = (Http401, empty_world).
Proof.
split; [discriminate|].
apply (refused_request_changes_nothing default_settings (quiet_env 0) greeting
         None empty_world).
discriminate.
Defined.

Lemma rejected_turn_only_scores_witness :
  (well_keyed empty_world
   ∧ verify_api_key default_settings valid_key = None
   ∧ sessions (handle_message default_settings (quiet_env 0) greeting valid_key
                 empty_world).2 !! request_sessionId greeting
     = Some (with_message (message greeting) (new_session 0 "a"))
   ∧ scamDetected (with_message (message greeting) (new_session 0 "a")) = false)
  ∧ request_events default_settings (quiet_env 0) greeting valid_key empty_world
    = Scored (text (message greeting))
      :: (if bool_decide (6 ≤ score (heuristic_scam_score (text (message greeting))))
          then []
          else [Classified (full_context (text (message greeting))
                              (conversationHistory greeting))]).
Proof.
split.
- split; [apply well_keyed_empty|]. split; [reflexivity|].
  split; [vm_compute; reflexivity | reflexivity].
- apply (rejected_turn_only_scores default_settings (quiet_env 0) greeting
           valid_key empty_world
           (with_message (message greeting) (new_session 0 "a"))).
  + apply well_keyed_empty.
  + reflexivity.
  + vm_compute. reflexivity.
  + reflexivity.
Defined.

Lemma at_most_one_report_per_request_witness :
  well_keyed flagged_world
  ∧ (length (deliveries (request_events default_settings (quiet_env 1000000)
                           hello_request valid_key flagged_world)) ≤ 1)%nat
  ∧ ∀ payload,
      payload ∈ deliveries (request_events default_settings (quiet_env 1000000)
                              hello_request valid_key flagged_world) →
      payload_scamDetected payload = true
      ∧ payload_sessionId payload = request_sessionId hello_request
      ∧ payload_agentNotes payload ≠ ""
      ∧ (3 ≤ totalMessagesExchanged payload
         ∨ MAX_TURNS default_settings ≤ totalMessagesExchanged payload).
Proof.
split; [apply flagged_world_well_keyed|].
apply (at_most_one_report_per_request default_settings (quiet_env 1000000)
         hello_request valid_key flagged_world).
apply flagged_world_well_keyed.
Defined.

(** The request of the witness does post a report. *)
Example hello_request_posts_a_report :
  totalMessagesExchanged
    <$> deliveries (request_events default_settings (quiet_env 1000000)
                      hello_request valid_key flagged_world)
  = [4].
Proof. vm_compute. reflexivity. Qed.

Lemma finalized_session_has_notes_witness :
  (well_keyed flagged_world
   ∧ verify_api_key default_settings valid_key = None
   ∧ sessions (handle_message default_settings (quiet_env 1000000) hello_request
                 valid_key flagged_world).2 !! request_sessionId hello_request
     = Some reported_session
   ∧ scamDetected reported_session = true
   ∧ (should_send_callback default_settings reported_session = true
      ∨ MAX_TURNS default_settings ≤ totalMessages reported_session))
  ∧ agentNotes reported_session ≠ "".
Proof.
assert (Hs : sessions (handle_message default_settings (quiet_env 1000000)
                 hello_request valid_key flagged_world).2
               !! request_sessionId hello_request = Some reported_session)
  by (vm_compute; reflexivity).
assert (Hflag : scamDetected reported_session = true) by (vm_compute; reflexivity).
assert (Hsend : should_send_callback default_settings reported_session = true
      ∨ MAX_TURNS default_settings ≤ totalMessages reported_session)
  by (left; vm_compute; reflexivity).
split.
- split; [apply flagged_world_well_keyed|]. split; [reflexivity|].
  split; [exact Hs|]. split; [exact Hflag | exact Hsend].
- apply (finalized_session_has_notes default_settings (quiet_env 1000000)
           hello_request valid_key flagged_world reported_session).
  + apply flagged_world_well_keyed.
  + reflexivity.
  + exact Hs.
  + exact Hflag.
  + exact Hsend.
Defined.

Lemma engaged_turn_appends_reply_witness :
  (well_keyed empty_world
   ∧ verify_api_key default_settings valid_key = None
   ∧ sessions flagged_world !! request_sessionId scam_request = Some flagged_session
   ∧ scamDetected flagged_session = true)
  ∧ ∃ prompt,
      prompts (request_events default_settings (quiet_env 0) scam_request
                 valid_key empty_world) = [prompt]
      ∧ prompt_current_message prompt = text (message scam_request)
      ∧ prompt_history prompt
        = (λ m, (sender m, text m))
            <$> history (current_session default_settings (quiet_env 0)
                           (request_sessionId scam_request) empty_world)
      ∧ prompt_stage prompt = stage flagged_session
      ∧ (handle_message default_settings (quiet_env 0) scam_request valid_key
           empty_world).1
        = Http200 {| status := "success";
                     reply := generate_agent_reply (quiet_env 0) prompt |}
      ∧ history flagged_session
        = history (current_session default_settings (quiet_env 0)
                     (request_sessionId scam_request) empty_world)
          ++ [message scam_request;
              {| sender := "user";
                 text := generate_agent_reply (quiet_env 0) prompt;
                 timestamp := timestamp (message scam_request) + 1000 |}]
      ∧ totalMessages flagged_session
        = totalMessages (current_session default_settings (quiet_env 0)
                           (request_sessionId scam_request) empty_world) + 2.
Proof.
split.
- split; [apply well_keyed_empty|]. split; [reflexivity|].
  split; vm_compute; reflexivity.
- apply (engaged_turn_appends_reply default_settings (quiet_env 0) scam_request
           valid_key empty_world flagged_session).
  + apply well_keyed_empty.
  + reflexivity.
  + vm_compute. reflexivity.
  + vm_compute. reflexivity.
Defined.

(** An environment whose classifier is sure of a scam. *)
Definition alarmed_env (now : Z) : Env :=
  {| clock_lookup := now; clock_create := now;
     llm_fraud_classification := λ _,
       {| label := Some "SCAM"; llm_confidence := 0.875%float;
          reason := "asks for money" |};
     generate_agent_reply := λ _, "Sorry, can you explain again?";
     post_final_result := λ _, true |}.

(** One keyword of weight 3 matches; the classifier declares the scam. *)
Definition refund_request : HoneypotRequest :=
  request_to "c" "I will send your refund".

Definition refund_session : SessionData :=
  turn_session default_settings (alarmed_env 0) refund_request empty_world.

Lemma keywords_are_kept_for_heuristic_detections_witness :
  (well_keyed empty_world
   ∧ verify_api_key default_settings valid_key = None
   ∧ sessions (handle_message default_settings (alarmed_env 0) refund_request
                 valid_key empty_world).2 !! request_sessionId refund_request
     = Some refund_session
   ∧ scamDetected refund_session = true
   ∧ scamDetected (current_session default_settings (alarmed_env 0)
                     (request_sessionId refund_request) empty_world) = false)
  ∧ (score (heuristic_scam_score (text (message refund_request))) < 6 →
     suspiciousKeywords (extractedIntelligence refund_session)
     = suspiciousKeywords
         (extractedIntelligence
            (current_session default_settings (alarmed_env 0)
               (request_sessionId refund_request) empty_world))).
Proof.
split.
- split; [apply well_keyed_empty|]. split; [reflexivity|].
  split; [vm_compute; reflexivity|]. split; vm_compute; reflexivity.
- apply (keywords_are_kept_for_heuristic_detections default_settings
           (alarmed_env 0) refund_request valid_key empty_world refund_session).
  + apply well_keyed_empty.
  + reflexivity.
  + vm_compute. reflexivity.
  + vm_compute. reflexivity.
  + vm_compute. reflexivity.
Defined.

(** The keyword matched, and the flagged session holds no keyword. *)
Example refund_session_has_no_keywords :
  matched_keywords (heuristic_scam_score (text (message refund_request)))
    = ["refund"]
  ∧ method (detection (alarmed_env 0) (text (message refund_request)) []) = "llm"
  ∧ scamDetected refund_session = true
  ∧ suspiciousKeywords (extractedIntelligence refund_session) = [].
Proof. vm_compute. done. Qed.

Lemma expired_session_starts_over_witness :
  (well_keyed flagged_world
   ∧ verify_api_key default_settings valid_key = None
   ∧ sessions flagged_world !! request_sessionId hello_request
     = Some flagged_session
   ∧ expired default_settings (clock_lookup (quiet_env 1800000001))
       flagged_session)
  ∧ ∃ session' later_events later_messages,
      sessions (handle_message default_settings (quiet_env 1800000001)
                  hello_request valid_key flagged_world).2
        !! request_sessionId hello_request = Some session'
      ∧ createdAt session' = clock_create (quiet_env 1800000001)
      ∧ history session' = message hello_request :: later_messages
      ∧ request_events default_settings (quiet_env 1800000001) hello_request
          valid_key flagged_world
        = Scored (text (message hello_request)) :: later_events.
Proof.
assert (Hexpired : expired default_settings (clock_lookup (quiet_env 1800000001))
       flagged_session) by (unfold expired; vm_compute; reflexivity).
split.
- split; [apply flagged_world_well_keyed|]. split; [reflexivity|].
  split; [vm_compute; reflexivity | exact Hexpired].
- apply (expired_session_starts_over default_settings (quiet_env 1800000001)
           hello_request valid_key flagged_world flagged_session).
  + apply flagged_world_well_keyed.
  + reflexivity.
  + vm_compute. reflexivity.
  + exact Hexpired.
Defined.

Lemma session_info_after_message_witness :
  (well_keyed empty_world
   ∧ verify_api_key default_settings valid_key = None
   ∧ sessions flagged_world !! request_sessionId scam_request = Some flagged_session
   ∧ 1000 - createdAt flagged_session ≤ timeout default_settings)
  ∧ Endpoints.get_session_info default_settings 1000
      (request_sessionId scam_request) valid_key flagged_world
    = (Ok (info_of flagged_session), flagged_world).
Proof.
split.
- split; [apply well_keyed_empty|]. split; [reflexivity|].
  split; [vm_compute; reflexivity | vm_compute; discriminate].
- apply (session_info_after_message default_settings (quiet_env 0) scam_request
           valid_key empty_world 1000 flagged_session).
  + apply well_keyed_empty.
  + reflexivity.
  + vm_compute. reflexivity.
  + vm_compute. discriminate.
Defined.

Lemma deleted_session_is_not_found_witness :
  verify_api_key default_settings valid_key = None
  ∧ (Endpoints.delete_session default_settings "a" valid_key flagged_world).1
    = Ok ("Session " +:+ "a" +:+ " deleted")
  ∧ (Endpoints.delete_session default_settings "a" valid_key flagged_world).2
    = {| sessions := delete "a" (sessions flagged_world);
         trace := trace flagged_world |}
  ∧ (sessions flagged_world !! "a" = None →
     (Endpoints.delete_session default_settings "a" valid_key flagged_world).2
     = flagged_world)
  ∧ Endpoints.get_session_info default_settings 5 "a" valid_key
      (Endpoints.delete_session default_settings "a" valid_key flagged_world).2
    = (NotFound,
       (Endpoints.delete_session default_settings "a" valid_key flagged_world).2).
Proof.
split; [reflexivity|].
apply (deleted_session_is_not_found default_settings "a" valid_key
         flagged_world 5).
reflexivity.
Defined.

Lemma stats_after_message_witness :
  (well_keyed empty_world ∧ verify_api_key default_settings valid_key = None)
  ∧ Endpoints.get_stats default_settings valid_key flagged_world
    = (Ok {| activeSessions :=
               Z.of_nat (size (sessions empty_world))
               + match sessions empty_world !! request_sessionId scam_request with
                 | Some _ => 0
                 | None => 1
                 end;
             maxTurns := MAX_TURNS default_settings; apiVersion := "1.0.0" |},
       flagged_world).
Proof.
split.
- split; [apply well_keyed_empty | reflexivity].
- apply (stats_after_message default_settings (quiet_env 0) scam_request
           valid_key empty_world).
  + apply well_keyed_empty.
  + reflexivity.
Defined.
